(** * News-Dashboard: the client-side filter / rank / limit pipelines

    A shallow embedding of the [useEffect] bodies of the dashboard panels
    ([NewsFeed], [AnalystQuotes], [GeographicMap], [ConflictCharts]) and of
    the JavaScript built-ins they call, followed by the properties proved
    about them.

    Modelling conventions.
    - A JavaScript property that may be missing is an [option].  For a
      text property [None] stands for [undefined] and for [null] alike
      (they behave alike under [===] against a string, under [?.], under
      truthiness and when a method is read off them); for the numeric
      [priority_score] it stands for [undefined].
    - Strings are byte strings; [toLowerCase] is modelled on the ASCII
      letters, which is what the dashboard's data contains.
    - A priority score or an intensity is a rational [Q], with [NaN]
      explicit: the sort comparator is only consulted for its sign, and for
      finite doubles the sign of the rounded difference is the sign of the
      exact one.
    - A coordinate is a binary64 number ([float]) and the distance is
      computed with the rounded operations, as the engine does; a decimal
      literal denotes the nearest binary64 number, in the source and here.
    - An exception is an explicit [Throw] in the [result] monad. *)

From Stdlib Require Import PrimFloat FloatOps SpecFloat.
From Stdlib Require Import ZArith QArith List Bool Ascii String.
From Stdlib Require Import DecimalString Lia Lqa Permutation Sorted.

Set Warnings "-inexact-float".
Import ListNotations.

Local Open Scope Z_scope.

(** ** JavaScript built-ins used by the panels *)

Module JS.

(** *** Exceptions *)

Inductive error : Type :=
| TypeError : string -> error.

Inductive result (A : Type) : Type :=
| Ok : A -> result A
| Throw : error -> result A.

Arguments Ok {A} _.
Arguments Throw {A} _.

Definition bind {A B : Type} (m : result A) (k : A -> result B) : result B :=
  match m with
  | Ok a => k a
  | Throw e => Throw e
  end.

Notation "x <- m ;; k" := (bind m (fun x => k))
  (at level 61, m at next level, right associativity).

(** [a || b] on fallible operands: [b] is evaluated only when [a] is falsy. *)
Definition orElse (a : result bool) (b : result bool) : result bool :=
  x <- a ;; if x then Ok true else b.

(** [Array.prototype.filter] with a callback that may throw: the callback
    runs on the elements in order and the first exception aborts the call. *)
Fixpoint filterM {A : Type} (p : A -> result bool) (l : list A)
  : result (list A) :=
  match l with
  | [] => Ok []
  | x :: l' =>
      b <- p x ;;
      r <- filterM p l' ;;
      Ok (if b then x :: r else r)
  end.

(** *** Strings *)

Definition lower_ascii (c : ascii) : ascii :=
  let n := N_of_ascii c in
  if andb (N.leb 65 n) (N.leb n 90) then ascii_of_N (n + 32) else c.

(** [String.prototype.toLowerCase]. *)
Fixpoint toLowerCase (s : string) : string :=
  match s with
  | EmptyString => EmptyString
  | String c s' => String (lower_ascii c) (toLowerCase s')
  end.

(** [String.prototype.includes]: does [q] occur in [s] at some position. *)
Fixpoint includes (s q : string) : bool :=
  if String.prefix q s then true
  else match s with
       | EmptyString => false
       | String _ s' => includes s' q
       end.

(** Truthiness of a string: only the empty string is falsy. *)
Definition truthy (s : string) : bool :=
  match s with
  | EmptyString => false
  | String _ _ => true
  end.

(** [v === s] for a property [v] that may be absent and a string [s]. *)
Definition strict_eq (v : option string) (s : string) : bool :=
  match v with
  | Some t => String.eqb t s
  | None => false
  end.

(** [v.toLowerCase().includes(q)]: reading a method off [undefined] throws
    a [TypeError]; the error records the property that was missing. *)
Definition lower_includes (field : string) (v : option string) (q : string)
  : result bool :=
  match v with
  | Some t => Ok (includes (toLowerCase t) q)
  | None =>
      Throw (TypeError field)
  end.

(** [v?.toLowerCase().includes(q)]: the optional chain short-circuits to
    [undefined], which is falsy. *)
Definition opt_lower_includes (v : option string) (q : string) : result bool :=
  match v with
  | Some t => Ok (includes (toLowerCase t) q)
  | None => Ok false
  end.

(** *** Arrays *)

(** The clamping of a relative index of [slice] against the length. *)
Definition clamp_index (len i : Z) : Z :=
  if i <? 0 then Z.max (len + i) 0 else Z.min i len.

(** [Array.prototype.slice(start, end)]. *)
Definition slice {A : Type} (l : list A) (start stop : Z) : list A :=
  let len := Z.of_nat (List.length l) in
  let k := clamp_index len start in
  let final := clamp_index len stop in
  firstn (Z.to_nat (final - k)) (skipn (Z.to_nat k) l).

(** *** Numbers *)

Inductive number : Type :=
| NaN : number
| Num : Q -> number.

(** A numeric property read for arithmetic: [undefined] converts to [NaN]. *)
Definition ToNumber (v : option Q) : number :=
  match v with
  | Some q => Num q
  | None => NaN
  end.

(** The binary [-]. *)
Definition minus (a b : number) : number :=
  match a, b with
  | Num x, Num y => Num (x - y)
  | _, _ => NaN
  end.

(** *** Array.prototype.sort

    [SortCompare] turns the comparator's result into a number and reads
    [NaN] as [+0].  The language fixes the result of a sort only when the
    comparator is consistent on the array (it then is the stable sorted
    arrangement); otherwise the order is left to the engine.  The sort is
    modelled as the stable insertion sort: it is the result of every engine
    where the comparator is consistent, and one admissible result where it
    is not.  For [by_priority] below the comparator is consistent when every
    item has a score, and when all the scores that are present are equal. *)

Definition SortCompare {A : Type} (comparefn : A -> A -> number) (x y : A) : Q :=
  match comparefn x y with
  | NaN => 0%Q
  | Num v => v
  end.

(** [x] may stay in front of [y]: the comparator does not ask for a swap. *)
Definition keeps_before {A : Type} (comparefn : A -> A -> number) (x y : A)
  : bool :=
  Qle_bool (SortCompare comparefn x y) 0.

Fixpoint insert {A : Type} (comparefn : A -> A -> number) (x : A) (l : list A)
  : list A :=
  match l with
  | [] => [x]
  | y :: l' =>
      if keeps_before comparefn x y then x :: y :: l'
      else y :: insert comparefn x l'
  end.

Fixpoint sort {A : Type} (comparefn : A -> A -> number) (l : list A) : list A :=
  match l with
  | [] => []
  | x :: l' => insert comparefn x (sort comparefn l')
  end.

(** *** Objects *)

(** The names every object literal inherits from [Object.prototype]; each
    of them is bound to a function or an object, hence truthy. *)
Definition Object_prototype : list string :=
  [ "constructor"; "toString"; "toLocaleString"; "valueOf";
    "hasOwnProperty"; "isPrototypeOf"; "propertyIsEnumerable"; "__proto__";
    "__defineGetter__"; "__defineSetter__"; "__lookupGetter__";
    "__lookupSetter__" ]%string.

(** What [obj[key]] finds in an object literal: an own entry, a member
    inherited from [Object.prototype], or nothing ([undefined]). *)
Inductive member (V : Type) : Type :=
| Own : V -> member V
| Inherited : member V
| Missing : member V.

Arguments Own {V} _.
Arguments Inherited {V}.
Arguments Missing {V}.

(** *** Math *)

(** [Math.max] on integers. *)
Definition Math_max (a b : Z) : Z := Z.max a b.

(** [Math.pow(x, 2)]: for the exponent 2 the engines' [pow] returns the
    rounded product. *)
Definition Math_pow2 (x : float) : float := (x * x)%float.

(** [Math.sqrt], correctly rounded. *)
Definition Math_sqrt (x : float) : float := PrimFloat.sqrt x.

End JS.

Import JS.

(** ** Data model *)

(** A candidate item as the feeds read it.  Articles carry [title],
    [source], [published_date], [url] and [secondary_category]; analyst
    entries carry [analyst_name], [organization] and [date].  Every property
    may be missing from an object, hence the options. *)
Record Item : Type := mkItem {
  id : Z;
  title : option string;
  content : option string;
  source : option string;
  published_date : option string;
  url : option string;
  analyst_name : option string;
  organization : option string;
  date : option string;
  priority_score : option Q;
  primary_category : option string;
  secondary_category : option string
}.

(** The [filters] prop handed to every panel. *)
Module Filters.
Record t : Type := mk {
  category : string;
  dateRange : string;
  searchQuery : string;
  region : string;
  startDate : option Z;
  endDate : option Z;
  dataType : option string
}.
End Filters.

Definition article (i : Z) (t c s d u : string) (p : Q) (pc : string)
  (sc : option string) : Item :=
  mkItem i (Some t) (Some c) (Some s) (Some d) (Some u) None None None
         (Some p) (Some pc) sc.

Definition quote (i : Z) (c a o d : string) (p : Q) (pc : string) : Item :=
  mkItem i None (Some c) None None None (Some a) (Some o) (Some d)
         (Some p) (Some pc) None.

(** The comparator [(a, b) => b.priority_score - a.priority_score]. *)
Definition by_priority (a b : Item) : number :=
  minus (ToNumber (priority_score b)) (ToNumber (priority_score a)).

(** ** NewsFeed.js *)

Module NewsFeed.

Local Open Scope string_scope.

Definition mockArticles : list Item :=
  [
    article 1
      "Global Trade Tensions Escalate as US and China Impose New Tariffs"
      "Trade tensions between the United States and China escalated today as both countries announced new tariffs on each other's goods."
      "Financial Times" "2023-06-15T10:30:00Z"
      "https://example.com/article1"
      85.5 "external_conflict" (Some "economic_indicators");
    article 2
      "Protests Erupt in Major Cities Over Economic Inequality"
      "Thousands took to the streets in several major cities today, protesting growing economic inequality and government policies."
      "The New York Times" "2023-06-14T14:45:00Z"
      "https://example.com/article2"
      78.2 "internal_conflict" None;
    article 3
      "Central Banks Signal Shift in Monetary Policy Amid Inflation Concerns"
      "Several central banks have signaled a potential shift in monetary policy as inflation concerns grow in major economies."
      "Bloomberg" "2023-06-13T09:15:00Z"
      "https://example.com/article3"
      72.8 "economic_indicators" None;
    article 4
      "Diplomatic Relations Deteriorate Between European Nations Over Resource Disputes"
      "Diplomatic tensions are rising between several European nations as disputes over shared resources intensify."
      "Reuters" "2023-06-12T16:20:00Z"
      "https://example.com/article4"
      68.5 "external_conflict" None;
    article 5
      "Political Polarization Reaches New Heights in Legislative Bodies"
      "Political analysts report unprecedented levels of polarization in legislative bodies, hampering governance and policy implementation."
      "The Washington Post" "2023-06-11T11:10:00Z"
      "https://example.com/article5"
      65.3 "internal_conflict" None ].

Definition mockAnalystCommentary : list Item :=
  [
    quote 1
      "The current trade tensions represent a fundamental shift in the global economic order. We're seeing the early stages of what could be a prolonged period of deglobalization."
      "Ray Dalio" "Bridgewater Associates"
      "2023-06-15T08:30:00Z"
      90.2 "external_conflict";
    quote 2
      "Rising inflation combined with slowing growth creates a challenging environment for central banks. We may be entering a period of stagflation similar to the 1970s."
      "Mohamed El-Erian" "Allianz"
      "2023-06-14T09:45:00Z"
      87.5 "economic_indicators";
    quote 3
      "The increasing social unrest we're witnessing is a direct consequence of wealth inequality. This internal conflict could have significant implications for political stability."
      "Nouriel Roubini" "Roubini Macro Associates"
      "2023-06-13T14:20:00Z"
      82.1 "internal_conflict" ].

(** The items [item => ...] keeps under a selected category. *)
Definition matches_category (c : string) (item : Item) : bool :=
  strict_eq (primary_category item) c || strict_eq (secondary_category item) c.

(** "Apply category filter". *)
Definition category_filter (filters : Filters.t) (filteredData : list Item)
  : list Item :=
  let c := Filters.category filters in
  if truthy c && negb (c =? "all")
  then filter (matches_category c) filteredData
  else filteredData.

(** The callback of the search filter, [query] already lower-cased. *)
Definition matches_search (query : string) (item : Item) : result bool :=
  orElse (opt_lower_includes (title item) query)
         (opt_lower_includes (content item) query).

(** "Apply search query filter". *)
Definition search_filter (filters : Filters.t) (filteredData : list Item)
  : result (list Item) :=
  if truthy (Filters.searchQuery filters)
  then let query := toLowerCase (Filters.searchQuery filters) in
       filterM (matches_search query) filteredData
  else Ok filteredData.

(** The effect's pipeline over a candidate collection: category filter,
    search filter, sort by priority score, limit. *)
Definition apply (filters : Filters.t) (items : list Item) (limit : Z)
  : result (list Item) :=
  let filteredData := category_filter filters items in
  filteredData <- search_filter filters filteredData ;;
  let filteredData := sort by_priority filteredData in
  Ok (slice filteredData 0 limit).

(** "Determine if we're showing news articles or analyst commentary". *)
Definition select_data (articles commentary : list Item) (filters : Filters.t)
  : list Item :=
  if strict_eq (Filters.dataType filters) "analyst" then commentary
  else articles.

(** The effect of the component over given collections; the value is what
    [setArticles] receives.  The [limit] prop defaults to 10. *)
Definition effect (articles commentary : list Item) (filters : Filters.t)
  (limit : option Z) : result (list Item) :=
  let limit := match limit with Some n => n | None => 10 end in
  apply filters (select_data articles commentary filters) limit.

(** The component as shipped, over its two mock arrays. *)
Definition NewsFeed (filters : Filters.t) (limit : option Z)
  : result (list Item) :=
  effect mockArticles mockAnalystCommentary filters limit.

Inductive Icon : Type := TrendingUp | TrendingFlat | TrendingDown.

(** [getPriorityIcon]; a comparison with [NaN] is false. *)
Definition getPriorityIcon (score : number) : Icon :=
  match score with
  | Num s =>
      if Qle_bool 75 s then TrendingUp
      else if Qle_bool 50 s then TrendingFlat
      else TrendingDown
  | NaN => TrendingDown
  end.

(** The heading of a card,
    [article.title || article.content.substring(0, 60) + '...']. *)
Definition heading (article : Item) : result string :=
  let fallback :=
    match content article with
    | Some c => Ok (String.substring 0 60 c ++ "...")
    | None => Throw (TypeError "content")
    end in
  match title article with
  | Some t => if truthy t then Ok t else fallback
  | None => fallback
  end.

End NewsFeed.

(** ** AnalystQuotes.js *)

Module AnalystQuotes.

Local Open Scope string_scope.

Definition mockAnalystQuotes : list Item :=
  [
    quote 1
      "The current trade tensions represent a fundamental shift in the global economic order. We're seeing the early stages of what could be a prolonged period of deglobalization."
      "Ray Dalio" "Bridgewater Associates"
      "2023-06-15T08:30:00Z"
      90.2 "external_conflict";
    quote 2
      "Rising inflation combined with slowing growth creates a challenging environment for central banks. We may be entering a period of stagflation similar to the 1970s."
      "Mohamed El-Erian" "Allianz"
      "2023-06-14T09:45:00Z"
      87.5 "economic_indicators";
    quote 3
      "The increasing social unrest we're witnessing is a direct consequence of wealth inequality. This internal conflict could have significant implications for political stability."
      "Nouriel Roubini" "Roubini Macro Associates"
      "2023-06-13T14:20:00Z"
      82.1 "internal_conflict";
    quote 4
      "Central banks are losing control of the monetary system. The debt levels we're seeing are unsustainable and will eventually lead to a major restructuring of the global financial system."
      "Ray Dalio" "Bridgewater Associates"
      "2023-06-10T10:15:00Z"
      88.7 "economic_indicators";
    quote 5
      "The geopolitical landscape is shifting dramatically. We're witnessing the rise of a multipolar world where the US-led order is increasingly challenged by emerging powers."
      "Ian Bremmer" "Eurasia Group"
      "2023-06-08T16:30:00Z"
      85.3 "external_conflict";
    quote 6
      "Political polarization has reached dangerous levels in many democracies. The inability to find common ground on basic issues threatens the stability of these systems."
      "Francis Fukuyama" "Stanford University"
      "2023-06-07T11:45:00Z"
      79.8 "internal_conflict";
    quote 7
      "The current debt cycle is approaching its end. We're likely to see a period of deleveraging that will have profound implications for asset prices and economic growth."
      "Ray Dalio" "Bridgewater Associates"
      "2023-06-05T09:20:00Z"
      86.4 "economic_indicators" ].

(** "Apply category filter": only [primary_category] is compared. *)
Definition category_filter (filters : Filters.t) (filteredQuotes : list Item)
  : list Item :=
  let c := Filters.category filters in
  if truthy c && negb (c =? "all")
  then filter (fun quote => strict_eq (primary_category quote) c) filteredQuotes
  else filteredQuotes.

(** The callback of the search filter, [query] already lower-cased. *)
Definition matches_search (query : string) (quote : Item) : result bool :=
  orElse (lower_includes "content" (content quote) query)
    (orElse (lower_includes "analyst_name" (analyst_name quote) query)
            (lower_includes "organization" (organization quote) query)).

(** "Apply search query filter". *)
Definition search_filter (filters : Filters.t) (filteredQuotes : list Item)
  : result (list Item) :=
  if truthy (Filters.searchQuery filters)
  then let query := toLowerCase (Filters.searchQuery filters) in
       filterM (matches_search query) filteredQuotes
  else Ok filteredQuotes.

(** The effect's pipeline over a candidate collection. *)
Definition apply (filters : Filters.t) (items : list Item) (limit : Z)
  : result (list Item) :=
  let filteredQuotes := category_filter filters items in
  filteredQuotes <- search_filter filters filteredQuotes ;;
  let filteredQuotes := sort by_priority filteredQuotes in
  Ok (slice filteredQuotes 0 limit).

(** The effect of the component over a given collection; the value is what
    [setQuotes] receives.  The [limit] prop defaults to 5. *)
Definition effect (quotes : list Item) (filters : Filters.t)
  (limit : option Z) : result (list Item) :=
  let limit := match limit with Some n => n | None => 5 end in
  apply filters quotes limit.

(** The component as shipped, over its mock array. *)
Definition AnalystQuotes (filters : Filters.t) (limit : option Z)
  : result (list Item) :=
  effect mockAnalystQuotes filters limit.

End AnalystQuotes.

(** ** GeographicMap.js *)

Module GeographicMap.

Local Open Scope string_scope.

Record Hotspot : Type := mkHotspot {
  name : string;
  coordinates : float * float;
  intensity : Q;
  category : string
}.

Definition mockHotspots : list Hotspot :=
  [
    mkHotspot "Ukraine-Russia Border" (31.1656, 48.3794)%float 90%Q "external_conflict";
    mkHotspot "Taiwan Strait" (121.0, 24.0)%float 75%Q "external_conflict";
    mkHotspot "Israel-Gaza" (34.3088, 31.3547)%float 85%Q "external_conflict";
    mkHotspot "Ethiopia-Tigray" (39.4699, 13.3135)%float 70%Q "internal_conflict";
    mkHotspot "Myanmar" (95.9562, 21.9162)%float 65%Q "internal_conflict";
    mkHotspot "US-Mexico Border" ((-106.3468), 31.7457)%float 60%Q "external_conflict";
    mkHotspot "South China Sea" (114.0994, 16.0797)%float 70%Q "external_conflict";
    mkHotspot "Venezuela" ((-66.5897), 6.4238)%float 55%Q "internal_conflict";
    mkHotspot "Iran-Saudi Arabia" (50.5333, 26.0667)%float 65%Q "external_conflict";
    mkHotspot "North Korea-South Korea" (127.0000, 38.0000)%float 60%Q "external_conflict";
    mkHotspot "France Protests" (2.3522, 48.8566)%float 50%Q "internal_conflict";
    mkHotspot "US Political Polarization" ((-98.5795), 39.8283)%float 65%Q "internal_conflict" ].

(** The object literal [regionCoordinates], as its list of entries. *)
Definition regionCoordinates : list (string * (float * float)) :=
  [ ("us", (-98.5795, 39.8283)%float);
    ("europe", (10.4515, 51.1657)%float);
    ("asia", (100.6197, 34.0479)%float);
    ("middle_east", (53.4949, 29.3721)%float);
    ("latin_america", (-78.6569, -20.7177)%float) ].

(** The own entry of an object literal under a key. *)
Fixpoint lookup {V : Type} (entries : list (string * V)) (key : string)
  : option V :=
  match entries with
  | [] => None
  | (k, v) :: rest => if k =? key then Some v else lookup rest key
  end.

(** [obj[key]] for the object literal with the given entries. *)
Definition get {V : Type} (entries : list (string * V)) (key : string)
  : member V :=
  match lookup entries key with
  | Some v => Own v
  | None =>
      if existsb (String.eqb key) Object_prototype then Inherited
      else Missing
  end.

(** "Apply category filter". *)
Definition category_filter (filters : Filters.t)
  (filteredHotspots : list Hotspot) : list Hotspot :=
  let c := Filters.category filters in
  if truthy c && negb (c =? "all")
  then filter (fun hotspot => category hotspot =? c) filteredHotspots
  else filteredHotspots.

(** [distance], as the callback computes it. *)
Definition distance (hotspot : Hotspot) (center : float * float) : float :=
  let '(regionLong, regionLat) := center in
  let '(hotspotLong, hotspotLat) := coordinates hotspot in
  Math_sqrt (Math_pow2 (hotspotLong - regionLong)
             + Math_pow2 (hotspotLat - regionLat))%float.

(** The callback of the proximity filter: [distance < 50]. *)
Definition near (center : float * float) (hotspot : Hotspot) : bool :=
  (distance hotspot center <? 50)%float.

(** "Apply region filter".  An inherited member is truthy but cannot be
    destructured as a coordinate pair, which throws. *)
Definition region_filter (filters : Filters.t)
  (filteredHotspots : list Hotspot) : result (list Hotspot) :=
  let r := Filters.region filters in
  if truthy r && negb (r =? "global")
  then match get regionCoordinates r with
       | Own center => Ok (filter (near center) filteredHotspots)
       | Inherited => Throw (TypeError "regionCoordinates[filters.region] is not iterable")
       | Missing => Ok filteredHotspots
       end
  else Ok filteredHotspots.

(** The effect over a given collection; the value is what [setHotspots]
    receives. *)
Definition effect (hotspots : list Hotspot) (filters : Filters.t)
  : result (list Hotspot) :=
  region_filter filters (category_filter filters hotspots).

Definition GeographicMap (filters : Filters.t) : result (list Hotspot) :=
  effect mockHotspots filters.


(** [getMarkerColor]. *)
Definition getMarkerColor (c : string) : string :=
  if c =? "internal_conflict" then "#f44336"
  else if c =? "external_conflict" then "#2196f3"
  else if c =? "economic_indicators" then "#4caf50"
  else "#9e9e9e".

End GeographicMap.

(** ** ConflictCharts.js *)

Module ConflictCharts.

Local Open Scope string_scope.

Record TimeSeries : Type := mkTimeSeries {
  dates : list string;
  internal_conflict : list Z;
  external_conflict : list Z;
  economic_indicators : list Z
}.

Definition mockTimeSeriesData : TimeSeries :=
  {| dates :=
       ["2023-05-15"; "2023-05-16"; "2023-05-17"; "2023-05-18";
        "2023-05-19"; "2023-05-20"; "2023-05-21"; "2023-05-22";
        "2023-05-23"; "2023-05-24"; "2023-05-25"; "2023-05-26";
        "2023-05-27"; "2023-05-28"; "2023-05-29"; "2023-05-30";
        "2023-05-31"; "2023-06-01"; "2023-06-02"; "2023-06-03";
        "2023-06-04"; "2023-06-05"; "2023-06-06"; "2023-06-07";
        "2023-06-08"; "2023-06-09"; "2023-06-10"; "2023-06-11";
        "2023-06-12"; "2023-06-13"; "2023-06-14"; "2023-06-15"];
     internal_conflict :=
       [5; 7; 6; 8; 10; 9; 7; 6; 8; 9;
        11; 13; 12; 10; 9; 8; 10; 12; 14; 15;
        13; 12; 14; 16; 18; 17; 15; 14; 16; 18;
        20; 22];
     external_conflict :=
       [8; 9; 10; 11; 10; 9; 8; 10; 12; 14;
        13; 12; 11; 10; 12; 14; 15; 16; 15; 14;
        13; 15; 17; 18; 17; 16; 15; 17; 19; 21;
        20; 19];
     economic_indicators :=
       [12; 11; 10; 9; 11; 13; 14; 15; 14; 13;
        12; 14; 16; 17; 16; 15; 14; 16; 18; 19;
        18; 17; 16; 15; 17; 19; 20; 19; 18; 17;
        19; 21] |}.

Definition mockPriorityScoreData : TimeSeries :=
  {| dates :=
       ["2023-05-15"; "2023-05-22"; "2023-05-29"; "2023-06-05";
        "2023-06-12"; "2023-06-15"];
     internal_conflict :=
       [65; 68; 72; 75; 78; 80];
     external_conflict :=
       [70; 72; 75; 78; 82; 85];
     economic_indicators :=
       [60; 65; 70; 72; 75; 78] |}.

(** One entry of [datasets]; the bar chart's entries have no [borderColor]
    and no [tension]. *)
Record Dataset : Type := mkDataset {
  label : string;
  data : list Z;
  borderColor : option string;
  backgroundColor : string;
  tension : option Q
}.

Record ChartData : Type := mkChartData {
  labels : list string;
  datasets : list Dataset
}.

(** "Apply date range filter": the start index for a given end index,
    after "Ensure startIndex is not negative". *)
Definition startIndex (filters : Filters.t) (endIndex : Z) : Z :=
  let r := Filters.dateRange filters in
  let startIndex :=
    if r =? "1d" then endIndex - 1
    else if r =? "7d" then endIndex - 7
    else if r =? "30d" then endIndex - 30
    else 0 in
  Math_max 0 startIndex.

(** [arr.slice(startIndex, endIndex + 1)] with the indices computed from
    the length of [dates]. *)
Definition window {A : Type} (filters : Filters.t) (series : TimeSeries)
  (arr : list A) : list A :=
  let endIndex := Z.of_nat (List.length (dates series)) - 1 in
  slice arr (startIndex filters endIndex) (endIndex + 1).

(** "Filter time series data". *)
Definition filterTimeSeries (filters : Filters.t) (series : TimeSeries)
  : TimeSeries :=
  {| dates := window filters series (dates series);
     internal_conflict := window filters series (internal_conflict series);
     external_conflict := window filters series (external_conflict series);
     economic_indicators := window filters series (economic_indicators series) |}.

(** [datasets.push(d)] under a condition. *)
Definition push_if {A : Type} (c : bool) (d : A) (ds : list A) : list A :=
  if c then ds ++ [d] else ds.

Definition selected (filters : Filters.t) (c : string) : bool :=
  (Filters.category filters =? "all") || (Filters.category filters =? c).

(** "Add datasets based on filters", line chart. *)
Definition timeSeriesDatasets (filters : Filters.t) (series : TimeSeries)
  : list Dataset :=
  let ds := [] in
  let ds := push_if (selected filters "internal_conflict")
    (mkDataset "Internal Conflict" (internal_conflict series)
       (Some "#f44336") "rgba(244, 67, 54, 0.1)" (Some 0.4%Q)) ds in
  let ds := push_if (selected filters "external_conflict")
    (mkDataset "External Conflict" (external_conflict series)
       (Some "#2196f3") "rgba(33, 150, 243, 0.1)" (Some 0.4%Q)) ds in
  let ds := push_if (selected filters "economic_indicators")
    (mkDataset "Economic Indicators" (economic_indicators series)
       (Some "#4caf50") "rgba(76, 175, 80, 0.1)" (Some 0.4%Q)) ds in
  ds.

(** "Add datasets based on filters", bar chart. *)
Definition priorityScoreDatasets (filters : Filters.t) (scores : TimeSeries)
  : list Dataset :=
  let ds := [] in
  let ds := push_if (selected filters "internal_conflict")
    (mkDataset "Internal Conflict" (internal_conflict scores)
       None "rgba(244, 67, 54, 0.7)" None) ds in
  let ds := push_if (selected filters "external_conflict")
    (mkDataset "External Conflict" (external_conflict scores)
       None "rgba(33, 150, 243, 0.7)" None) ds in
  let ds := push_if (selected filters "economic_indicators")
    (mkDataset "Economic Indicators" (economic_indicators scores)
       None "rgba(76, 175, 80, 0.7)" None) ds in
  ds.

Section Effect.

(** The label of a date, [toLocaleDateString('en-US', ...)]: it depends on
    the browser's time zone and stays a parameter. *)
Variable formatLabel : string -> string.

(** The effect over given collections; the values are what
    [setTimeSeriesData] and [setPriorityScoreData] receive. *)
Definition effect (series scores : TimeSeries) (filters : Filters.t)
  : ChartData * ChartData :=
  let filteredTimeSeries := filterTimeSeries filters series in
  let filteredPriorityScores := scores in
  ( {| labels := map formatLabel (dates filteredTimeSeries);
       datasets := timeSeriesDatasets filters filteredTimeSeries |},
    {| labels := map formatLabel (dates filteredPriorityScores);
       datasets := priorityScoreDatasets filters filteredPriorityScores |} ).

Definition ConflictCharts (filters : Filters.t) : ChartData * ChartData :=
  effect mockTimeSeriesData mockPriorityScoreData filters.

End Effect.

End ConflictCharts.

(** ** getCategoryColor (NewsFeed.js, AnalystQuotes.js) *)

Definition getCategoryColor (c : string) : string :=
  if (c =? "internal_conflict")%string then "#f44336"
  else if (c =? "external_conflict")%string then "#2196f3"
  else if (c =? "economic_indicators")%string then "#4caf50"
  else "#9e9e9e".

(** ** SearchFilter.js *)

Module SearchFilter.

(** The state of the filter panel. *)
Record State : Type := mkState {
  category : string;
  dateRange : string;
  searchQuery : string;
  region : string;
  startDate : option Z;
  endDate : option Z
}.

(** The object handed to [onFilterChange]: the four selectors always, the
    two dates only as a pair ([None] is an absent key). *)
Record Update : Type := mkUpdate {
  u_category : string;
  u_dateRange : string;
  u_searchQuery : string;
  u_region : string;
  u_startDate : option Z;
  u_endDate : option Z
}.

(** The object built by the effect and by [handleSearch]. *)
Definition filters (s : State) : Update :=
  match (dateRange s =? "custom")%string, startDate s, endDate s with
  | true, Some a, Some b =>
      mkUpdate (category s) (dateRange s) (searchQuery s) (region s)
               (Some a) (Some b)
  | _, _, _ =>
      mkUpdate (category s) (dateRange s) (searchQuery s) (region s)
               None None
  end.

End SearchFilter.

(** ** Dashboard.js *)

Module Dashboard.


(** [handleFilterChange]: the new state is
    [{ ...filters, ...newFilters }]. *)
Definition handleFilterChange (filters : Filters.t)
  (newFilters : SearchFilter.Update) : Filters.t :=
  Filters.mk
    (SearchFilter.u_category newFilters)
    (SearchFilter.u_dateRange newFilters)
    (SearchFilter.u_searchQuery newFilters)
    (SearchFilter.u_region newFilters)
    (match SearchFilter.u_startDate newFilters with
     | Some d => Some d
     | None => Filters.startDate filters
     end)
    (match SearchFilter.u_endDate newFilters with
     | Some d => Some d
     | None => Filters.endDate filters
     end)
    (Filters.dataType filters).





End Dashboard.

(** ** Statements taken from the specification and sample inputs *)

(** Union match on the category, as the specification words it. *)
Definition union_match (c : string) (it : Item) : Prop :=
  primary_category it = Some c \/ secondary_category it = Some c.

(** The specification's category-filter step: under a category other than
    "all" exactly the union matches are retained, under "all" everything. *)
Definition category_step_spec (step : Filters.t -> list Item -> list Item)
  : Prop :=
  forall (filters : Filters.t) (items : list Item) (it : Item),
    (Filters.category filters <> "all"%string ->
     (In it (step filters items) <->
      In it items /\ union_match (Filters.category filters) it)) /\
    (Filters.category filters = "all"%string -> step filters items = items).

(** Criteria with the dashboard's defaults for everything but the category
    and the search query. *)
Definition criteria (c q : string) : Filters.t :=
  Filters.mk c "7d" q "global" None None None.

(** An entry filed under external conflict with economic indicators as its
    secondary category. *)
Definition dual_item : Item :=
  mkItem 1 (Some "Tariffs"%string) (Some "New tariffs announced"%string)
    None None None None None None (Some 85.5%Q)
    (Some "external_conflict"%string) (Some "economic_indicators"%string).

(** [q] occurs in [s] as a contiguous substring. *)
Definition substring_of (q s : string) : Prop :=
  exists pre post : string, s = (pre ++ q ++ post)%string.

(** A text property is present and its lower-cased value contains [q]. *)
Definition contains_lower (v : option string) (q : string) : Prop :=
  exists t : string, v = Some t /\ substring_of q (toLowerCase t).

(** The searchable texts of an item as the specification words them: the
    title, or the content for an item without a title, plus the analyst's
    name and organization where present. *)
Definition searchable_texts (it : Item) : list string :=
  match title it with
  | Some t => [t]
  | None => match content it with Some c => [c] | None => [] end
  end
  ++ match analyst_name it with Some a => [a] | None => [] end
  ++ match organization it with Some o => [o] | None => [] end.

(** The specification's search step for a non-empty query: an item is
    retained exactly when the lower-cased query occurs in one of its
    lower-cased searchable texts. *)
Definition search_step_spec
  (step : Filters.t -> list Item -> result (list Item)) : Prop :=
  forall (filters : Filters.t) (items : list Item) (it : Item),
    Filters.searchQuery filters <> ""%string ->
    exists r, step filters items = Ok r /\
      (In it r <->
       In it items /\
       exists t, In t (searchable_texts it) /\
                 substring_of (toLowerCase (Filters.searchQuery filters))
                              (toLowerCase t)).

(** A quote that carries the three texts the quote search reads. *)
Definition has_quote_texts (it : Item) : Prop :=
  content it <> None /\ analyst_name it <> None /\ organization it <> None.

(** An analyst entry with all of its texts. *)
Definition sample_quote : Item :=
  quote 1 "A prolonged period of deglobalization." "Ray Dalio"
    "Bridgewater Associates" "2023-06-15T08:30:00Z" 90.2%Q "external_conflict".

(** The first of the mock articles: its content ends in "goods", its title
    does not mention them. *)
Definition first_article : Item := nth 0 NewsFeed.mockArticles dual_item.

(** The item's priority score is present and equals [s]. *)
Definition has_score (s : Q) (it : Item) : bool :=
  match priority_score it with
  | Some p => Qeq_bool p s
  | None => false
  end.

(** [a] has a priority score at least as high as that of [b]. *)
Definition priority_ge (a b : Item) : Prop :=
  match priority_score a, priority_score b with
  | Some x, Some y => (y <= x)%Q
  | _, _ => False
  end.

(** Every item of the list has a priority score. *)
Definition all_scored (l : list Item) : Prop :=
  Forall (fun it => priority_score it <> None) l.

(** The criteria [{...filters, category: c}]. *)
Definition with_category (c : string) (filters : Filters.t) : Filters.t :=
  Filters.mk c (Filters.dateRange filters) (Filters.searchQuery filters)
    (Filters.region filters) (Filters.startDate filters)
    (Filters.endDate filters) (Filters.dataType filters).

(** The specification's superset property of a pipeline: whatever a run
    under some category returns is also returned by the run under "all"
    with all other fields and the limit equal. *)
Definition superset_spec
  (apply : Filters.t -> list Item -> Z -> result (list Item)) : Prop :=
  forall (filters : Filters.t) (items : list Item) (limit : Z)
         (rc rall : list Item),
    apply filters items limit = Ok rc ->
    apply (with_category "all" filters) items limit = Ok rall ->
    forall x, In x rc -> In x rall.

(** The score the specification ranks by: a missing score counts as 0. *)
Definition score_or_zero (it : Item) : Q :=
  match priority_score it with
  | Some p => p
  | None => 0%Q
  end.

(** The specification's tolerance of malformed items: a run always returns,
    and its result is in descending order of [score_or_zero]. *)
Definition robust_spec
  (apply : Filters.t -> list Item -> Z -> result (list Item)) : Prop :=
  forall (filters : Filters.t) (items : list Item) (limit : Z),
    exists r, apply filters items limit = Ok r /\
      StronglySorted (fun a b => (score_or_zero b <= score_or_zero a)%Q) r.

(** An article whose priority score is missing. *)
Definition unscored_item : Item :=
  mkItem 7 (Some "Draft"%string) (Some "No score yet"%string)
    None None None None None None None (Some "internal_conflict"%string) None.

(** An article with a priority score of 9. *)
Definition low_item : Item :=
  mkItem 8 (Some "Minor"%string) (Some "Low priority"%string)
    None None None None None None (Some 9%Q)
    (Some "internal_conflict"%string) None.

(** An analyst entry whose content is missing. *)
Definition textless_quote : Item :=
  mkItem 9 None None None None None (Some "Ray Dalio"%string)
    (Some "Bridgewater Associates"%string) None (Some 50%Q)
    (Some "external_conflict"%string) None.

(** The last [n] elements of a list. *)
Definition last_n {A : Type} (n : nat) (l : list A) : list A :=
  skipn (List.length l - n) l.







(** The three categories a chart series exists for. *)
Definition known_categories : list string :=
  ["internal_conflict"; "external_conflict"; "economic_indicators"]%string.

(** The label the charts give the series of a category. *)
Definition series_label (c : string) : string :=
  if (c =? "internal_conflict")%string then "Internal Conflict"
  else if (c =? "external_conflict")%string then "External Conflict"
  else if (c =? "economic_indicators")%string then "Economic Indicators"
  else c.

(** The samples of a category in a time series. *)
Definition series_data (c : string) (s : ConflictCharts.TimeSeries) : list Z :=
  if (c =? "internal_conflict")%string then ConflictCharts.internal_conflict s
  else if (c =? "external_conflict")%string then ConflictCharts.external_conflict s
  else if (c =? "economic_indicators")%string then ConflictCharts.economic_indicators s
  else [].

(** The value of a hexadecimal digit. *)
Definition hex_digit (c : ascii) : N :=
  let n := N_of_ascii c in
  if ((48 <=? n) && (n <=? 57))%N then (n - 48)%N
  else if ((97 <=? n) && (n <=? 102))%N then (n - 87)%N
  else 0%N.

(** The bytes of a string of hexadecimal digit pairs. *)
Fixpoint hex_bytes (s : string) : list N :=
  match s with
  | String a (String b rest) =>
      (16 * hex_digit a + hex_digit b)%N :: hex_bytes rest
  | _ => []
  end.

Definition decimal (n : N) : string :=
  NilZero.string_of_uint (N.to_uint n).

(** The colour [#rrggbb] in the notation [rgba(r, g, b, alpha)] that the
    charts use for their fills. *)
Definition rgba (hex alpha : string) : string :=
  match hex with
  | String "#" body =>
      match hex_bytes body with
      | [r; g; b] =>
          ("rgba(" ++ decimal r ++ ", " ++ decimal g ++ ", " ++ decimal b
           ++ ", " ++ alpha ++ ")")%string
      | _ => ""%string
      end
  | _ => ""%string
  end.

(** The series of a time series have as many samples as it has dates. *)
Definition aligned (s : ConflictCharts.TimeSeries) : Prop :=
  List.length (ConflictCharts.internal_conflict s)
    = List.length (ConflictCharts.dates s) /\
  List.length (ConflictCharts.external_conflict s)
    = List.length (ConflictCharts.dates s) /\
  List.length (ConflictCharts.economic_indicators s)
    = List.length (ConflictCharts.dates s).

(** The icons in rising order. *)
Definition icon_rank (i : NewsFeed.Icon) : nat :=
  match i with
  | NewsFeed.TrendingDown => 0
  | NewsFeed.TrendingFlat => 1
  | NewsFeed.TrendingUp => 2
  end.



(** * Properties *)

(** ** Facts about the built-ins *)

Section BuiltinFacts.

Lemma truthy_true (s : string) : truthy s = true <-> s <> ""%string.
Proof.
  destruct s; simpl; split; intros H; try discriminate; auto.
Qed.

Lemma strict_eq_true (v : option string) (s : string) :
  strict_eq v s = true <-> v = Some s.
Proof.
  destruct v as [t|]; simpl.
  - rewrite String.eqb_eq. split; [intros ->; reflexivity | now intros [= ->]].
  - split; discriminate.
Qed.

Lemma filterM_pure {A : Type} (p : A -> result bool) (f : A -> bool)
  (l : list A) :
  (forall x, In x l -> p x = Ok (f x)) ->
  filterM p l = Ok (filter f l).
Proof.
  induction l as [|a l IH]; intros H; simpl.
  - reflexivity.
  - rewrite (H a (or_introl eq_refl)). simpl.
    rewrite IH by (intros x Hx; apply H; now right). simpl.
    now destruct (f a).
Qed.

Lemma filterM_incl {A : Type} (p : A -> result bool) (l r : list A) :
  filterM p l = Ok r -> forall x, In x r -> In x l /\ p x = Ok true.
Proof.
  revert r. induction l as [|a l IH]; simpl; intros r H x Hx.
  - injection H as <-. destruct Hx.
  - destruct (p a) as [b|e] eqn:Ea; simpl in H; [|discriminate].
    destruct (filterM p l) as [r'|e] eqn:Er; simpl in H; [|discriminate].
    injection H as <-. destruct b.
    + destruct Hx as [<-|Hx]; [now split; [left|]|].
      destruct (IH r' eq_refl x Hx). split; [now right|assumption].
    + destruct (IH r' eq_refl x Hx). split; [now right|assumption].
Qed.

Lemma slice_0_firstn {A : Type} (l : list A) (n : Z) :
  0 <= n -> slice l 0 n = firstn (Z.to_nat n) l.
Proof.
  intros Hn. unfold slice, clamp_index.
  destruct (Z.ltb_spec0 0 0) as [H0|_]; [lia|].
  destruct (Z.ltb_spec0 n 0) as [H1|_]; [lia|].
  rewrite (Z.min_l 0) by lia. simpl skipn.
  rewrite Z.sub_0_r.
  destruct (Z.le_ge_cases n (Z.of_nat (List.length l))) as [Hle|Hge].
  - now rewrite Z.min_l by lia.
  - rewrite Z.min_r by lia. rewrite Nat2Z.id.
    rewrite firstn_all. symmetry. apply firstn_all2. lia.
Qed.

Lemma slice_0_all {A : Type} (l : list A) (n : Z) :
  Z.of_nat (List.length l) <= n -> slice l 0 n = l.
Proof.
  intros H. rewrite slice_0_firstn by lia. apply firstn_all2. lia.
Qed.

Lemma slice_0_length {A : Type} (l : list A) (n : Z) :
  0 <= n ->
  Z.of_nat (List.length (slice l 0 n)) = Z.min n (Z.of_nat (List.length l)).
Proof.
  intros H. rewrite slice_0_firstn by lia. rewrite length_firstn. lia.
Qed.

Lemma insert_perm {A : Type} (c : A -> A -> number) (x : A) (l : list A) :
  Permutation (insert c x l) (x :: l).
Proof.
  induction l as [|y l IH]; simpl.
  - reflexivity.
  - destruct (keeps_before c x y).
    + reflexivity.
    + rewrite IH. apply perm_swap.
Qed.

Lemma sort_perm {A : Type} (c : A -> A -> number) (l : list A) :
  Permutation (sort c l) l.
Proof.
  induction l as [|x l IH]; simpl.
  - reflexivity.
  - rewrite insert_perm. now apply perm_skip.
Qed.

Lemma sort_In {A : Type} (c : A -> A -> number) (l : list A) (x : A) :
  In x (sort c l) <-> In x l.
Proof.
  split; apply Permutation_in; [|symmetry]; apply sort_perm.
Qed.

Lemma sort_length {A : Type} (c : A -> A -> number) (l : list A) :
  List.length (sort c l) = List.length l.
Proof. apply Permutation_length, sort_perm. Qed.

End BuiltinFacts.

(** ** The category filter *)

Section CategoryFilter.

Lemma NewsFeed_category_filter_In (filters : Filters.t) (items : list Item)
  (it : Item) :
  Filters.category filters <> ""%string ->
  Filters.category filters <> "all"%string ->
  (In it (NewsFeed.category_filter filters items) <->
   In it items /\ union_match (Filters.category filters) it).
Proof.
  intros He Ha. unfold NewsFeed.category_filter, union_match.
  apply truthy_true in He. rewrite He.
  apply String.eqb_neq in Ha. rewrite Ha. simpl.
  rewrite filter_In. unfold NewsFeed.matches_category.
  rewrite orb_true_iff, !strict_eq_true. reflexivity.
Qed.

Lemma AnalystQuotes_category_filter_In (filters : Filters.t)
  (items : list Item) (it : Item) :
  Filters.category filters <> ""%string ->
  Filters.category filters <> "all"%string ->
  (In it (AnalystQuotes.category_filter filters items) <->
   In it items /\ primary_category it = Some (Filters.category filters)).
Proof.
  intros He Ha. unfold AnalystQuotes.category_filter.
  apply truthy_true in He. rewrite He.
  apply String.eqb_neq in Ha. rewrite Ha. simpl.
  rewrite filter_In, strict_eq_true. reflexivity.
Qed.

Lemma NewsFeed_category_filter_all (filters : Filters.t) (items : list Item) :
  Filters.category filters = "all"%string ->
  NewsFeed.category_filter filters items = items.
Proof. intros H. unfold NewsFeed.category_filter. now rewrite H. Qed.

Lemma AnalystQuotes_category_filter_all (filters : Filters.t)
  (items : list Item) :
  Filters.category filters = "all"%string ->
  AnalystQuotes.category_filter filters items = items.
Proof. intros H. unfold AnalystQuotes.category_filter. now rewrite H. Qed.

Lemma NewsFeed_search_filter_off (filters : Filters.t) (items : list Item) :
  Filters.searchQuery filters = ""%string ->
  NewsFeed.search_filter filters items = Ok items.
Proof. intros H. unfold NewsFeed.search_filter. now rewrite H. Qed.

End CategoryFilter.

Lemma NewsFeed_category_filter_length (filters : Filters.t)
  (items : list Item) :
  (List.length (NewsFeed.category_filter filters items)
   <= List.length items)%nat.
Proof.
  unfold NewsFeed.category_filter.
  destruct (_ && _); [apply filter_length_le | apply Nat.le_refl].
Qed.

(** C1 (amended).  Under a non-empty category other than "all" the category
    step of the article feed retains exactly the items whose primary or
    secondary category equals it, while the category step of the analyst
    quotes retains exactly the items whose primary category equals it (the
    secondary category is not read there).  Under "all" both steps retain
    every item.  An item filed under external conflict with economic
    indicators as secondary category is in the article feed's result for
    the category economic indicators when no search query is set and the
    limit does not truncate. *)
Theorem category_filter_per_pipeline (filters : Filters.t)
  (items : list Item) (it : Item) :
  let c := Filters.category filters in
  (c <> ""%string -> c <> "all"%string ->
   (In it (NewsFeed.category_filter filters items) <->
    In it items /\ union_match c it) /\
   (In it (AnalystQuotes.category_filter filters items) <->
    In it items /\ primary_category it = Some c)) /\
  (c = "all"%string ->
   NewsFeed.category_filter filters items = items /\
   AnalystQuotes.category_filter filters items = items) /\
  (c = "economic_indicators"%string ->
   Filters.searchQuery filters = ""%string ->
   primary_category it = Some "external_conflict"%string ->
   secondary_category it = Some "economic_indicators"%string ->
   In it items ->
   forall limit : Z, Z.of_nat (List.length items) <= limit ->
   exists r, NewsFeed.apply filters items limit = Ok r /\ In it r).
Proof.
  intros c. split; [|split].
  - intros He Ha. split.
    + apply NewsFeed_category_filter_In; assumption.
    + apply AnalystQuotes_category_filter_In; assumption.
  - intros Hall. split.
    + now apply NewsFeed_category_filter_all.
    + now apply AnalystQuotes_category_filter_all.
  - intros Hc Hq Hp Hs Hin limit Hl.
    unfold NewsFeed.apply.
    rewrite NewsFeed_search_filter_off by assumption. simpl.
    eexists; split; [reflexivity|].
    rewrite slice_0_all.
    + apply sort_In, NewsFeed_category_filter_In.
      * fold c. rewrite Hc. discriminate.
      * fold c. rewrite Hc. discriminate.
      * split; [assumption|]. right. fold c. now rewrite Hc.
    + rewrite sort_length.
      pose proof (NewsFeed_category_filter_length filters items). lia.
Qed.

Lemma category_filter_per_pipeline_witness :
  In dual_item
     (NewsFeed.category_filter (criteria "economic_indicators" "") [dual_item]) /\
  ~ In dual_item
     (AnalystQuotes.category_filter (criteria "economic_indicators" "") [dual_item]) /\
  exists r, NewsFeed.apply (criteria "economic_indicators" "") [dual_item] 10
            = Ok r /\ In dual_item r.
Proof.
  destruct (category_filter_per_pipeline
              (criteria "economic_indicators" "") [dual_item] dual_item)
    as [Hsel [_ Hpart]].
  destruct Hsel as [Hn Ha]; [discriminate | discriminate |].
  split; [|split].
  - apply Hn. split; [now left | right; reflexivity].
  - intros H. apply Ha in H. destruct H as [_ H]. discriminate H.
  - apply Hpart; try reflexivity; [now left | simpl; lia].
Defined.

(** C1, as stated, fails on the analyst quotes: under the category
    economic indicators their category step drops an item whose secondary
    category is economic indicators. *)
Lemma category_union_fails_for_quotes :
  ~ category_step_spec AnalystQuotes.category_filter.
Proof.
  intros H.
  destruct (H (criteria "economic_indicators" "") [dual_item] dual_item)
    as [Hne _].
  assert (Hin : In dual_item
                  (AnalystQuotes.category_filter
                     (criteria "economic_indicators" "") [dual_item])).
  { apply Hne; [discriminate|]. split; [now left | right; reflexivity]. }
  exact Hin.
Qed.

(** ** The search filter *)

Section SearchFilter.

Lemma prefix_spec (q s : string) :
  String.prefix q s = true <-> exists post, s = (q ++ post)%string.
Proof.
  revert s. induction q as [|a q IH]; intros s.
  - split; [intros _; now exists s | intros _; now destruct s].
  - destruct s as [|b s]; simpl.
    + split; [discriminate | intros [post H]; discriminate H].
    + destruct (Ascii.ascii_dec a b) as [->|Hab].
      * rewrite IH. split; intros [post H]; exists post.
        -- now rewrite H.
        -- now injection H.
      * split; [discriminate|].
        intros [post H]. injection H as H1 H2. now elim Hab.
Qed.

Lemma includes_spec (s q : string) :
  includes s q = true <-> substring_of q s.
Proof.
  unfold substring_of. induction s as [|a s IH]; cbn [includes].
  - destruct (String.prefix q "") eqn:E.
    + apply prefix_spec in E. destruct E as [post E].
      split; [intros _; now exists ""%string, post | reflexivity].
    + split; [discriminate|]. intros [pre [post H]].
      destruct pre; simpl in H; [|discriminate].
      assert (String.prefix q "" = true) by (apply prefix_spec; now exists post).
      congruence.
  - destruct (String.prefix q (String a s)) eqn:E.
    + apply prefix_spec in E. destruct E as [post E].
      split; [intros _; now exists ""%string, post | reflexivity].
    + rewrite IH. split; intros [pre [post H]].
      * exists (String a pre), post. simpl. now rewrite H.
      * destruct pre as [|b pre]; simpl in H.
        -- assert (String.prefix q (String a s) = true)
             by (apply prefix_spec; now exists post).
           congruence.
        -- injection H as _ H. now exists pre, post.
Qed.

Lemma opt_lower_includes_spec (v : option string) (q : string) :
  exists b, opt_lower_includes v q = Ok b /\
            (b = true <-> contains_lower v q).
Proof.
  unfold contains_lower. destruct v as [t|]; simpl.
  - exists (includes (toLowerCase t) q). split; [reflexivity|].
    rewrite includes_spec. split.
    + intros H. now exists t.
    + intros [t' [[= <-] H]]. exact H.
  - exists false. split; [reflexivity|].
    split; [discriminate | intros [t [H _]]; discriminate H].
Qed.

Lemma lower_includes_spec (field : string) (v : option string) (q : string) :
  v <> None ->
  exists b, lower_includes field v q = Ok b /\
            (b = true <-> contains_lower v q).
Proof.
  intros Hv. destruct v as [t|]; [|now elim Hv].
  destruct (opt_lower_includes_spec (Some t) q) as [b Hb]. now exists b.
Qed.

(** The callback of the article search never throws, and says whether the
    title or the content contains the query. *)
Lemma NewsFeed_matches_search_spec (q : string) (it : Item) :
  exists b, NewsFeed.matches_search q it = Ok b /\
            (b = true <->
             contains_lower (title it) q \/ contains_lower (content it) q).
Proof.
  unfold NewsFeed.matches_search, orElse.
  destruct (opt_lower_includes_spec (title it) q) as [b1 [E1 H1]].
  destruct (opt_lower_includes_spec (content it) q) as [b2 [E2 H2]].
  rewrite E1. simpl. destruct b1.
  - exists true. split; [reflexivity|]. split; [intros _; left; now apply H1 | reflexivity].
  - exists b2. split; [exact E2|]. rewrite H2. split; [now right|].
    intros [H|H]; [apply H1 in H; discriminate | exact H].
Qed.

(** The callback of the quote search on a quote that has its texts. *)
Lemma AnalystQuotes_matches_search_spec (q : string) (it : Item) :
  has_quote_texts it ->
  exists b, AnalystQuotes.matches_search q it = Ok b /\
            (b = true <->
             contains_lower (content it) q \/
             contains_lower (analyst_name it) q \/
             contains_lower (organization it) q).
Proof.
  intros [Hc [Ha Ho]]. unfold AnalystQuotes.matches_search, orElse.
  destruct (lower_includes_spec "content" (content it) q Hc) as [b1 [E1 H1]].
  destruct (lower_includes_spec "analyst_name" (analyst_name it) q Ha)
    as [b2 [E2 H2]].
  destruct (lower_includes_spec "organization" (organization it) q Ho)
    as [b3 [E3 H3]].
  rewrite E1. simpl. destruct b1.
  - exists true. split; [reflexivity|].
    split; [intros _; left; now apply H1 | reflexivity].
  - rewrite E2. simpl. destruct b2.
    + exists true. split; [reflexivity|].
      split; [intros _; right; left; now apply H2 | reflexivity].
    + exists b3. split; [exact E3|]. rewrite H3. split; [now right; right|].
      intros [H|[H|H]];
        [apply H1 in H; discriminate | apply H2 in H; discriminate | exact H].
Qed.

(** A filter whose callback returns on every element returns, and keeps
    the elements the callback accepts. *)
Lemma filterM_total {A : Type} (p : A -> result bool) (P : A -> Prop)
  (l : list A) :
  (forall x, In x l -> exists b, p x = Ok b /\ (b = true <-> P x)) ->
  exists r, filterM p l = Ok r /\ forall x, In x r <-> In x l /\ P x.
Proof.
  induction l as [|a l IH]; intros H; simpl.
  - exists []. split; [reflexivity|]. intros x. simpl. tauto.
  - destruct (H a (or_introl eq_refl)) as [b [Eb Hb]]. rewrite Eb. simpl.
    destruct IH as [r [Er Hr]]; [intros x Hx; apply H; now right|].
    rewrite Er. simpl. eexists. split; [reflexivity|].
    intros x. destruct b; simpl; rewrite Hr.
    + split.
      * intros [<-|[Hx Px]]; [split; [now left | now apply Hb] | tauto].
      * intros [[<-|Hx] Px]; [now left | right; tauto].
    + split.
      * intros [Hx Px]. tauto.
      * intros [[<-|Hx] Px]; [apply Hb in Px; discriminate | tauto].
Qed.

End SearchFilter.

(** C2 (amended).  Under a non-empty search query the article feed retains
    an item exactly when the lower-cased query occurs in its lower-cased
    title or in its lower-cased content, each read only when present (the
    analyst's name and organization are not searched there); the analyst
    quotes retain a quote exactly when the lower-cased query occurs in its
    lower-cased content, analyst name or organization, on collections whose
    quotes carry these three texts. *)
Theorem search_filter_per_pipeline (filters : Filters.t) (items : list Item)
  (it : Item) :
  Filters.searchQuery filters <> ""%string ->
  let q := toLowerCase (Filters.searchQuery filters) in
  (exists r, NewsFeed.search_filter filters items = Ok r /\
     (In it r <->
      In it items /\
      (contains_lower (title it) q \/ contains_lower (content it) q))) /\
  ((forall x, In x items -> has_quote_texts x) ->
   exists r, AnalystQuotes.search_filter filters items = Ok r /\
     (In it r <->
      In it items /\
      (contains_lower (content it) q \/
       contains_lower (analyst_name it) q \/
       contains_lower (organization it) q))).
Proof.
  intros Hq q. apply truthy_true in Hq. split.
  - unfold NewsFeed.search_filter. rewrite Hq. fold q.
    destruct (filterM_total (NewsFeed.matches_search q)
                (fun x => contains_lower (title x) q \/
                          contains_lower (content x) q) items)
      as [r [Er Hr]].
    + intros x _. apply NewsFeed_matches_search_spec.
    + exists r. split; [exact Er | apply Hr].
  - intros Htexts. unfold AnalystQuotes.search_filter. rewrite Hq. fold q.
    destruct (filterM_total (AnalystQuotes.matches_search q)
                (fun x => contains_lower (content x) q \/
                          contains_lower (analyst_name x) q \/
                          contains_lower (organization x) q) items)
      as [r [Er Hr]].
    + intros x Hx. apply AnalystQuotes_matches_search_spec, Htexts, Hx.
    + exists r. split; [exact Er | apply Hr].
Qed.

Lemma search_filter_per_pipeline_witness :
  (exists r, AnalystQuotes.search_filter (criteria "all" "DALIO") [sample_quote]
             = Ok r /\ In sample_quote r) /\
  (exists r, NewsFeed.search_filter (criteria "all" "DEGLOBAL") [sample_quote]
             = Ok r /\ In sample_quote r).
Proof.
  split.
  - destruct (search_filter_per_pipeline (criteria "all" "DALIO")
                [sample_quote] sample_quote) as [_ H]; [discriminate|].
    destruct H as [r [Er Hr]].
    + intros x [<-|[]]. repeat split; discriminate.
    + exists r. split; [exact Er|]. apply Hr. split; [now left|].
      right; left. exists "Ray Dalio"%string. split; [reflexivity|].
      now exists "ray "%string, ""%string.
  - destruct (search_filter_per_pipeline (criteria "all" "DEGLOBAL")
                [sample_quote] sample_quote) as [[r [Er Hr]] _]; [discriminate|].
    exists r. split; [exact Er|]. apply Hr. split; [now left|].
    right. exists "A prolonged period of deglobalization."%string.
    split; [reflexivity|].
    now exists "a prolonged period of "%string, "ization."%string.
Defined.

(** C2, as stated, fails on the article feed: the query "goods" retains the
    first mock article through its content although the article has a
    title and the title does not contain the query. *)
Lemma search_title_fallback_fails_for_articles :
  ~ search_step_spec NewsFeed.search_filter.
Proof.
  intros H.
  destruct (H (criteria "all" "goods") NewsFeed.mockArticles first_article)
    as [r [Er Hr]]; [discriminate|].
  assert (E : NewsFeed.search_filter (criteria "all" "goods")
                NewsFeed.mockArticles = Ok [first_article])
    by (vm_compute; reflexivity).
  rewrite E in Er. injection Er as <-.
  destruct Hr as [Hr _].
  destruct (Hr (or_introl eq_refl)) as [_ [t [Ht Hsub]]].
  destruct Ht as [<-|[]].
  apply includes_spec in Hsub. vm_compute in Hsub. discriminate Hsub.
Qed.

(** ** The rank step *)

Section Rank.

Lemma keeps_before_by_priority (x y : Item) :
  keeps_before by_priority x y = true <->
  (forall px py, priority_score x = Some px -> priority_score y = Some py ->
                 (py <= px)%Q).
Proof.
  unfold keeps_before, SortCompare, by_priority, ToNumber, minus.
  rewrite Qle_bool_iff.
  destruct (priority_score x) as [px|], (priority_score y) as [py|].
  - split.
    + intros H ? ? [= <-] [= <-]. lra.
    + intros H. specialize (H px py eq_refl eq_refl). lra.
  - split; [intros _ ? ? _ [=] | intros _; lra].
  - split; [intros _ ? ? [=] | intros _; lra].
  - split; [intros _ ? ? [=] | intros _; lra].
Qed.

Lemma keeps_before_le (x y : Item) (px py : Q) :
  keeps_before by_priority x y = true ->
  priority_score x = Some px -> priority_score y = Some py -> (py <= px)%Q.
Proof. intros H. now apply keeps_before_by_priority. Qed.

(** An item without a score compares as equal with every item. *)
Lemma unscored_keeps_before (u x : Item) :
  priority_score u = None ->
  keeps_before by_priority u x = true /\ keeps_before by_priority x u = true.
Proof.
  intros Hu. split; apply keeps_before_by_priority; intros px py H1 H2;
    congruence.
Qed.

(** The comparator never asks for both orders to be swapped. *)
Lemma by_priority_antisym (x y : Item) :
  keeps_before by_priority x y = false -> keeps_before by_priority y x = true.
Proof.
  intros H. apply keeps_before_by_priority. intros py px Hy Hx.
  destruct (Qlt_le_dec py px) as [Hlt|Hle]; [|exact Hle].
  assert (Ht : keeps_before by_priority x y = true).
  { apply keeps_before_by_priority. intros ? ? H1 H2.
    rewrite Hx in H1. rewrite Hy in H2.
    injection H1 as <-. injection H2 as <-. lra. }
  congruence.
Qed.

(** *** Stability *)

Lemma insert_filter {A : Type} (c : A -> A -> number) (P : A -> bool)
  (x : A) (l : list A) :
  (forall z, In z l -> P x = true -> P z = true ->
             keeps_before c x z = true) ->
  filter P (insert c x l) = filter P (x :: l).
Proof.
  induction l as [|y l IH]; intros H; [reflexivity|].
  cbn [insert]. destruct (keeps_before c x y) eqn:E; [reflexivity|].
  cbn [filter]. rewrite IH by (intros z Hz; apply H; now right).
  cbn [filter]. destruct (P x) eqn:Px; [|reflexivity].
  destruct (P y) eqn:Py; [|reflexivity].
  rewrite (H y (or_introl eq_refl) eq_refl Py) in E. discriminate E.
Qed.

Lemma sort_filter {A : Type} (c : A -> A -> number) (P : A -> bool)
  (l : list A) :
  (forall x z, P x = true -> P z = true -> keeps_before c x z = true) ->
  filter P (sort c l) = filter P l.
Proof.
  intros H. induction l as [|x l IH]; [reflexivity|].
  cbn [sort]. rewrite insert_filter by (intros z _; apply H).
  cbn [filter]. now rewrite IH.
Qed.

Lemma has_score_keeps_before (s : Q) (x z : Item) :
  has_score s x = true -> has_score s z = true ->
  keeps_before by_priority x z = true.
Proof.
  unfold has_score. intros Hx Hz. apply keeps_before_by_priority.
  intros px pz Ex Ez. rewrite Ex in Hx. rewrite Ez in Hz.
  apply Qeq_bool_iff in Hx, Hz. lra.
Qed.

(** *** Order *)

Lemma insert_sorted (x : Item) (l : list Item) :
  priority_score x <> None -> all_scored l ->
  StronglySorted priority_ge l ->
  StronglySorted priority_ge (insert by_priority x l).
Proof.
  intros Hx Hl Hs. induction Hs as [|y l Hs IH Hy]; cbn [insert].
  - repeat constructor.
  - inversion Hl as [|? ? Hys Hl']; subst.
    destruct (priority_score x) as [px|] eqn:Ex; [|now elim Hx].
    destruct (priority_score y) as [py|] eqn:Ey; [|now elim Hys].
    destruct (keeps_before by_priority x y) eqn:E.
    + pose proof (keeps_before_le x y px py E Ex Ey) as Hle.
      constructor; [now constructor|].
      constructor.
      * unfold priority_ge. now rewrite Ex, Ey.
      * rewrite Forall_forall in Hy |- *. intros z Hz.
        specialize (Hy z Hz). unfold priority_ge in Hy |- *.
        rewrite Ey in Hy. rewrite Ex.
        destruct (priority_score z); [lra | exact Hy].
    + constructor; [now apply IH|].
      rewrite Forall_forall in Hy |- *. intros z Hz.
      apply (Permutation_in _ (insert_perm by_priority x l)) in Hz.
      destruct Hz as [<-|Hz]; [|now apply Hy].
      unfold priority_ge. rewrite Ey, Ex.
      apply by_priority_antisym in E.
      exact (keeps_before_le y x py px E Ey Ex).
Qed.

Lemma all_scored_perm (l l' : list Item) :
  Permutation l l' -> all_scored l -> all_scored l'.
Proof. intros Hp. unfold all_scored. now apply Permutation_Forall. Qed.

Lemma sort_sorted (l : list Item) :
  all_scored l -> StronglySorted priority_ge (sort by_priority l).
Proof.
  induction l as [|x l IH]; intros H; cbn [sort].
  - constructor.
  - inversion H as [|? ? Hx Hl]; subst. apply insert_sorted.
    + exact Hx.
    + apply (all_scored_perm l); [symmetry; apply sort_perm | exact Hl].
    + now apply IH.
Qed.

End Rank.




(** ** Idempotence of the article pipeline *)

Section Idempotence.

Variable A : Type.
Variable c : A -> A -> number.
Hypothesis c_antisym :
  forall x y, keeps_before c x y = false -> keeps_before c y x = true.






End Idempotence.

Lemma filter_all {A : Type} (P : A -> bool) (l : list A) :
  (forall x, In x l -> P x = true) -> filter P l = l.
Proof.
  intros H. apply forallb_filter_id, forallb_forall, H.
Qed.

Lemma filterM_all {A : Type} (p : A -> result bool) (l : list A) :
  (forall x, In x l -> p x = Ok true) -> filterM p l = Ok l.
Proof.
  induction l as [|a l IH]; intros H; [reflexivity|].
  cbn [filterM]. rewrite (H a (or_introl eq_refl)). simpl.
  rewrite IH by (intros x Hx; apply H; now right). reflexivity.
Qed.

Lemma In_firstn {A : Type} (n : nat) (l : list A) (x : A) :
  In x (firstn n l) -> In x l.
Proof.
  intros H. rewrite <- (firstn_skipn n l). apply in_or_app. now left.
Qed.

(** The search step of the article feed always returns; what it returns
    comes from its input and, under a query, is accepted by the callback. *)
Lemma NewsFeed_search_filter_ok (filters : Filters.t) (l : list Item) :
  exists r, NewsFeed.search_filter filters l = Ok r /\
    forall x, In x r ->
      In x l /\
      (truthy (Filters.searchQuery filters) = true ->
       NewsFeed.matches_search (toLowerCase (Filters.searchQuery filters)) x
       = Ok true).
Proof.
  unfold NewsFeed.search_filter.
  destruct (truthy (Filters.searchQuery filters)) eqn:Hq.
  - set (q := toLowerCase (Filters.searchQuery filters)).
    destruct (filterM_total (NewsFeed.matches_search q)
                (fun x => contains_lower (title x) q \/
                          contains_lower (content x) q) l) as [r [Er _]].
    + intros x _. apply NewsFeed_matches_search_spec.
    + exists r. split; [exact Er|]. intros x Hx.
      destruct (filterM_incl _ _ _ Er x Hx). now split.
  - exists l. split; [reflexivity|]. intros x Hx. split; [exact Hx|discriminate].
Qed.





(** ** Category "all" against a specific category *)

Section Superset.

Lemma filterM_complete {A : Type} (p : A -> result bool) (l r : list A)
  (x : A) :
  filterM p l = Ok r -> In x l -> p x = Ok true -> In x r.
Proof.
  revert r. induction l as [|a l IH]; intros r H Hx Hp; [destruct Hx|].
  cbn [filterM] in H.
  destruct (p a) as [b|e] eqn:Ea; simpl in H; [|discriminate].
  destruct (filterM p l) as [r'|e] eqn:Er; simpl in H; [|discriminate].
  injection H as <-. destruct Hx as [->|Hx].
  - rewrite Hp in Ea. injection Ea as <-. now left.
  - destruct b; [right|]; now apply IH.
Qed.

Lemma In_slice {A : Type} (l : list A) (a b : Z) (x : A) :
  In x (slice l a b) -> In x l.
Proof.
  unfold slice. intros H. apply In_firstn in H.
  rewrite <- (firstn_skipn (Z.to_nat (clamp_index (Z.of_nat (List.length l)) a)) l).
  apply in_or_app. now right.
Qed.

Lemma ranked_superset (b : bool) (p : Item -> result bool)
  (C : list Item -> list Item) (items sall sc : list Item) (limit : Z) :
  (forall x, In x (C items) -> In x items) ->
  (if b then filterM p items else Ok items) = Ok sall ->
  Z.of_nat (List.length sall) <= limit ->
  (if b then filterM p (C items) else Ok (C items)) = Ok sc ->
  forall x, In x (slice (sort by_priority sc) 0 limit) ->
            In x (slice (sort by_priority sall) 0 limit).
Proof.
  intros HC Hall Hlen Hc x Hx.
  rewrite slice_0_all by (rewrite sort_length; exact Hlen).
  apply sort_In. apply In_slice, sort_In in Hx.
  destruct b.
  - destruct (filterM_incl _ _ _ Hc x Hx) as [Hin Hp].
    exact (filterM_complete _ _ _ x Hall (HC x Hin) Hp).
  - injection Hall as <-. injection Hc as <-. now apply HC.
Qed.

Lemma NewsFeed_category_filter_incl (filters : Filters.t) (items : list Item)
  (x : Item) :
  In x (NewsFeed.category_filter filters items) -> In x items.
Proof.
  unfold NewsFeed.category_filter. destruct (_ && _); [|trivial].
  intros H. now apply filter_In in H.
Qed.

Lemma AnalystQuotes_category_filter_incl (filters : Filters.t)
  (items : list Item) (x : Item) :
  In x (AnalystQuotes.category_filter filters items) -> In x items.
Proof.
  unfold AnalystQuotes.category_filter. destruct (_ && _); [|trivial].
  intros H. now apply filter_In in H.
Qed.

End Superset.

(** C5 (amended).  When the limit is at least the number of items that pass
    the search filter, so that the run under "all" is not truncated, every
    item returned under a specific category is also returned under "all"
    with all other fields and the limit equal; this holds for the article
    feed and for the analyst quotes. *)
Theorem all_is_superset_when_untruncated (filters : Filters.t)
  (items : list Item) (limit : Z) :
  (forall sall rc,
     NewsFeed.search_filter filters items = Ok sall ->
     Z.of_nat (List.length sall) <= limit ->
     NewsFeed.apply filters items limit = Ok rc ->
     exists rall,
       NewsFeed.apply (with_category "all" filters) items limit = Ok rall /\
       forall x, In x rc -> In x rall) /\
  (forall sall rc,
     AnalystQuotes.search_filter filters items = Ok sall ->
     Z.of_nat (List.length sall) <= limit ->
     AnalystQuotes.apply filters items limit = Ok rc ->
     exists rall,
       AnalystQuotes.apply (with_category "all" filters) items limit
         = Ok rall /\
       forall x, In x rc -> In x rall).
Proof.
  split; intros sall rc Hall Hlen Hrc.
  - unfold NewsFeed.apply in Hrc |- *.
    change (NewsFeed.category_filter (with_category "all" filters) items)
      with items.
    change (NewsFeed.search_filter (with_category "all" filters) items)
      with (NewsFeed.search_filter filters items).
    rewrite Hall. cbn [bind]. eexists. split; [reflexivity|].
    destruct (NewsFeed.search_filter filters
                (NewsFeed.category_filter filters items)) as [sc|e] eqn:Ec;
      [|discriminate]. cbn [bind] in Hrc. injection Hrc as <-.
    unfold NewsFeed.search_filter in Hall, Ec.
    eapply ranked_superset; eauto.
    intros x. apply NewsFeed_category_filter_incl.
  - unfold AnalystQuotes.apply in Hrc |- *.
    change (AnalystQuotes.category_filter (with_category "all" filters) items)
      with items.
    change (AnalystQuotes.search_filter (with_category "all" filters) items)
      with (AnalystQuotes.search_filter filters items).
    rewrite Hall. cbn [bind]. eexists. split; [reflexivity|].
    destruct (AnalystQuotes.search_filter filters
                (AnalystQuotes.category_filter filters items)) as [sc|e] eqn:Ec;
      [|discriminate]. cbn [bind] in Hrc. injection Hrc as <-.
    unfold AnalystQuotes.search_filter in Hall, Ec.
    eapply ranked_superset; eauto.
    intros x. apply AnalystQuotes_category_filter_incl.
Qed.

Lemma all_is_superset_when_untruncated_witness :
  exists rall,
    AnalystQuotes.apply (criteria "all" "") AnalystQuotes.mockAnalystQuotes 7
      = Ok rall /\
    forall x,
      In x (slice (sort by_priority
                     (AnalystQuotes.category_filter
                        (criteria "internal_conflict" "")
                        AnalystQuotes.mockAnalystQuotes)) 0 7) ->
      In x rall.
Proof.
  destruct (all_is_superset_when_untruncated
              (criteria "internal_conflict" "")
              AnalystQuotes.mockAnalystQuotes 7) as [_ H].
  apply (H AnalystQuotes.mockAnalystQuotes).
  - reflexivity.
  - simpl. lia.
  - reflexivity.
Defined.

(** C5, as stated, fails once the limit truncates: with the shipped quotes
    and the panel's limit of 5, the run under internal conflict returns the
    quote with id 3, which the run under "all" cuts off. *)
Lemma all_is_not_superset_under_limit :
  ~ superset_spec AnalystQuotes.apply.
Proof.
  intros H.
  destruct (AnalystQuotes.apply (criteria "internal_conflict" "")
              AnalystQuotes.mockAnalystQuotes 5) as [rc|] eqn:Ec;
    [|vm_compute in Ec; discriminate Ec].
  destruct (AnalystQuotes.apply (criteria "all" "")
              AnalystQuotes.mockAnalystQuotes 5) as [rall|] eqn:Ea;
    [|vm_compute in Ea; discriminate Ea].
  pose proof (H (criteria "internal_conflict" "")
                AnalystQuotes.mockAnalystQuotes 5 rc rall Ec Ea
                (nth 2 AnalystQuotes.mockAnalystQuotes sample_quote)) as Hin.
  assert (Hrc : In (nth 2 AnalystQuotes.mockAnalystQuotes sample_quote) rc).
  { vm_compute in Ec. injection Ec as <-. left. reflexivity. }
  apply Hin, (in_map id) in Hrc.
  vm_compute in Ea. injection Ea as <-. vm_compute in Hrc.
  repeat (destruct Hrc as [Hrc|Hrc]; [discriminate Hrc|]). exact Hrc.
Qed.

(** ** Independence from the date and region fields *)

(** C10.  Two criteria that agree on category, search query and data type
    give the same result list in the article feed and in the analyst
    quotes, whatever their date range, start date, end date and region. *)
Theorem lists_ignore_date_and_region (f1 f2 : Filters.t)
  (articles commentary quotes : list Item) (limit : option Z) :
  Filters.category f1 = Filters.category f2 ->
  Filters.searchQuery f1 = Filters.searchQuery f2 ->
  Filters.dataType f1 = Filters.dataType f2 ->
  NewsFeed.effect articles commentary f1 limit
  = NewsFeed.effect articles commentary f2 limit /\
  AnalystQuotes.effect quotes f1 limit = AnalystQuotes.effect quotes f2 limit.
Proof.
  intros Hc Hq Hd. split.
  - unfold NewsFeed.effect, NewsFeed.apply, NewsFeed.select_data,
      NewsFeed.search_filter, NewsFeed.category_filter.
    now rewrite Hc, Hq, Hd.
  - unfold AnalystQuotes.effect, AnalystQuotes.apply,
      AnalystQuotes.search_filter, AnalystQuotes.category_filter.
    now rewrite Hc, Hq.
Qed.

Lemma lists_ignore_date_and_region_witness :
  NewsFeed.NewsFeed (Filters.mk "all" "1d" "trade" "us" None None None) None
  = NewsFeed.NewsFeed
      (Filters.mk "all" "custom" "trade" "asia" (Some 1) (Some 2) None) None /\
  AnalystQuotes.AnalystQuotes
    (Filters.mk "all" "1d" "trade" "us" None None None) None
  = AnalystQuotes.AnalystQuotes
      (Filters.mk "all" "custom" "trade" "asia" (Some 1) (Some 2) None) None.
Proof.
  apply (lists_ignore_date_and_region
           (Filters.mk "all" "1d" "trade" "us" None None None)
           (Filters.mk "all" "custom" "trade" "asia" (Some 1) (Some 2) None));
    reflexivity.
Defined.

(** ** Malformed items *)

Section Malformed.

(** A list in which every two items tie is returned as it came in. *)
Lemma sort_all_ties {A : Type} (c : A -> A -> number) (l : list A) :
  (forall x y, In x l -> In y l -> keeps_before c x y = true) ->
  sort c l = l.
Proof.
  induction l as [|x l IH]; intros H; [reflexivity|].
  cbn [sort]. rewrite IH by (intros a b Ha Hb; apply H; now right).
  destruct l as [|y l]; [reflexivity|].
  cbn [insert]. rewrite (H x y); [reflexivity | now left | right; now left].
Qed.

Lemma slice_nil {A : Type} (a b : Z) : slice (@nil A) a b = [].
Proof. unfold slice. now rewrite skipn_nil, firstn_nil. Qed.

Lemma NewsFeed_apply_total (filters : Filters.t) (items : list Item)
  (limit : Z) :
  exists r, NewsFeed.apply filters items limit = Ok r.
Proof.
  unfold NewsFeed.apply.
  destruct (NewsFeed_search_filter_ok filters
              (NewsFeed.category_filter filters items)) as [s [Es _]].
  rewrite Es. cbn [bind]. now eexists.
Qed.

Lemma AnalystQuotes_search_filter_total (filters : Filters.t)
  (l : list Item) :
  Filters.searchQuery filters = ""%string \/
  (forall x, In x l -> has_quote_texts x) ->
  exists r, AnalystQuotes.search_filter filters l = Ok r.
Proof.
  intros H. unfold AnalystQuotes.search_filter.
  destruct (truthy (Filters.searchQuery filters)) eqn:Hq; [|now eexists].
  destruct H as [H|H]; [rewrite H in Hq; discriminate Hq|].
  set (q := toLowerCase (Filters.searchQuery filters)).
  destruct (filterM_total (AnalystQuotes.matches_search q)
              (fun x => contains_lower (content x) q \/
                        contains_lower (analyst_name x) q \/
                        contains_lower (organization x) q) l) as [r [Er _]].
  - intros x Hx. now apply AnalystQuotes_matches_search_spec, H.
  - now exists r.
Qed.

End Malformed.

(** C7 (amended).  The article pipeline returns for every collection,
    whatever fields its items miss; under a search query an item with
    neither title nor content is left out of the result rather than making
    the run fail; the empty collection gives the empty result in both
    pipelines.  An item without a priority score is not ranked as 0: every
    comparison it takes part in yields NaN, which the sort reads as a tie,
    and a list in which every two items tie, such as one item without a
    score next to one with a score, is returned in its input order.  The
    analyst-quote pipeline returns when the search query is empty or every
    quote carries its content, analyst name and organization. *)
Theorem feeds_tolerate_missing_fields (filters : Filters.t)
  (items : list Item) (limit : Z) :
  (exists r, NewsFeed.apply filters items limit = Ok r) /\
  (forall it r,
     Filters.searchQuery filters <> ""%string ->
     title it = None -> content it = None ->
     NewsFeed.apply filters items limit = Ok r -> ~ In it r) /\
  (NewsFeed.apply filters [] limit = Ok [] /\
   AnalystQuotes.apply filters [] limit = Ok []) /\
  (forall u x,
     priority_score u = None ->
     by_priority u x = NaN /\ by_priority x u = NaN /\
     SortCompare by_priority u x == 0 /\ SortCompare by_priority x u == 0) /\
  (forall l,
     (forall x y, In x l -> In y l ->
                  (SortCompare by_priority x y <= 0)%Q) ->
     sort by_priority l = l) /\
  (Filters.searchQuery filters = ""%string \/
   (forall x, In x items -> has_quote_texts x) ->
   exists r, AnalystQuotes.apply filters items limit = Ok r).
Proof.
  split; [apply NewsFeed_apply_total|].
  split; [|split; [|split; [|split]]].
  - intros it r Hq Ht Hc Hr Hin. unfold NewsFeed.apply in Hr.
    destruct (NewsFeed_search_filter_ok filters
                (NewsFeed.category_filter filters items)) as [s [Es Hs]].
    rewrite Es in Hr. cbn [bind] in Hr. injection Hr as <-.
    apply In_slice, sort_In in Hin.
    destruct (Hs it Hin) as [_ Hm].
    apply truthy_true in Hq. specialize (Hm Hq).
    unfold NewsFeed.matches_search in Hm. rewrite Ht, Hc in Hm.
    discriminate Hm.
  - split.
    + unfold NewsFeed.apply, NewsFeed.category_filter, NewsFeed.search_filter.
      destruct (_ && _), (truthy _); cbn; now rewrite slice_nil.
    + unfold AnalystQuotes.apply, AnalystQuotes.category_filter,
        AnalystQuotes.search_filter.
      destruct (_ && _), (truthy _); cbn; now rewrite slice_nil.
  - intros u x Hu. unfold SortCompare, by_priority. rewrite Hu. cbn.
    destruct (ToNumber (priority_score x)); repeat split; reflexivity.
  - intros l H. apply sort_all_ties. intros x y Hx Hy.
    unfold keeps_before. apply Qle_bool_iff. now apply H.
  - intros H. unfold AnalystQuotes.apply.
    destruct (AnalystQuotes_search_filter_total filters
                (AnalystQuotes.category_filter filters items)) as [s Es].
    + destruct H as [H|H]; [now left | right].
      intros x Hx. apply H.
      now apply (AnalystQuotes_category_filter_incl filters).
    + rewrite Es. cbn [bind]. now eexists.
Qed.

Lemma feeds_tolerate_missing_fields_witness :
  (exists r,
     NewsFeed.apply (criteria "all" "ray") [textless_quote; sample_quote] 10
       = Ok r /\ ~ In textless_quote r) /\
  sort by_priority [unscored_item; low_item] = [unscored_item; low_item] /\
  exists r, AnalystQuotes.apply (criteria "all" "ray") [sample_quote] 5 = Ok r.
Proof.
  destruct (feeds_tolerate_missing_fields (criteria "all" "ray")
              [textless_quote; sample_quote] 10)
    as [[r Hr] [Hskip [_ [_ [Hties _]]]]].
  destruct (feeds_tolerate_missing_fields (criteria "all" "ray")
              [sample_quote] 5) as [_ [_ [_ [_ [_ Hq]]]]].
  split; [|split].
  - exists r. split; [exact Hr|].
    apply (Hskip textless_quote r); try reflexivity; [discriminate | exact Hr].
  - apply Hties.
    intros x y [<-|[<-|[]]] [<-|[<-|[]]]; vm_compute; discriminate.
  - apply Hq. right. intros x [<-|[]]. repeat split; discriminate.
Defined.

(** C7, as stated, fails on both pipelines: the article pipeline leaves an
    item without a score ahead of an item scored 9 instead of ranking it as
    0, and the analyst-quote pipeline throws on a quote without content
    once a search query is set. *)
Lemma missing_fields_break_the_claim :
  ~ robust_spec NewsFeed.apply /\ ~ robust_spec AnalystQuotes.apply.
Proof.
  split; intros H.
  - destruct (H (criteria "all" "") [unscored_item; low_item] 10)
      as [r [Er Hr]].
    vm_compute in Er. injection Er as <-.
    inversion Hr as [|? ? _ Hhd]; subst.
    inversion Hhd as [|? ? Hle _]; subst.
    vm_compute in Hle. now apply Hle.
  - destruct (H (criteria "all" "ray") [textless_quote] 5) as [r [Er _]].
    vm_compute in Er. discriminate Er.
Qed.

(** ** The chart's date window *)

Section DateWindow.

Lemma slice_to_end {A : Type} (l : list A) (start : Z) :
  0 <= start <= Z.of_nat (List.length l) ->
  slice l start (Z.of_nat (List.length l)) = skipn (Z.to_nat start) l.
Proof.
  intros H. unfold slice, clamp_index.
  destruct (Z.ltb_spec0 start 0) as [H0|_]; [lia|].
  destruct (Z.ltb_spec0 (Z.of_nat (List.length l)) 0) as [H1|_]; [lia|].
  rewrite (Z.min_l start) by lia. rewrite Z.min_id.
  apply firstn_all2. rewrite length_skipn. lia.
Qed.

(** The window over the dates themselves: everything from the start index
    on. *)
Lemma window_dates (filters : Filters.t) (series : ConflictCharts.TimeSeries) :
  ConflictCharts.window filters series (ConflictCharts.dates series)
  = skipn (Z.to_nat (ConflictCharts.startIndex filters
                       (Z.of_nat (List.length (ConflictCharts.dates series)) - 1)))
          (ConflictCharts.dates series).
Proof.
  unfold ConflictCharts.window.
  set (n := Z.of_nat (List.length (ConflictCharts.dates series))).
  replace (n - 1 + 1) with n by lia.
  apply slice_to_end. fold n.
  unfold ConflictCharts.startIndex, Math_max.
  destruct (_ =? _)%string; [lia|].
  destruct (_ =? _)%string; [lia|].
  destruct (_ =? _)%string; lia.
Qed.

Lemma window_dates_last (filters : Filters.t)
  (series : ConflictCharts.TimeSeries) (k : nat) :
  ConflictCharts.startIndex filters
    (Z.of_nat (List.length (ConflictCharts.dates series)) - 1)
  = Z.max 0 (Z.of_nat (List.length (ConflictCharts.dates series)) - 1 - Z.of_nat k) ->
  ConflictCharts.window filters series (ConflictCharts.dates series)
  = last_n (S k) (ConflictCharts.dates series).
Proof.
  intros H. rewrite window_dates, H. unfold last_n. f_equal. lia.
Qed.

End DateWindow.

(** C3 (what the code does).  The date window of the chart keeps one
    sample more than the selected range names: the last 2 samples under
    "1d", the last 8 under "7d" and the last 31 under "30d" (fewer when the
    series is shorter), and every sample under "90d" and "1y", for which
    the code has no branch.  On the shipped series "1d" leaves the two
    dates 2023-06-14 and 2023-06-15, not the last one alone. *)
Theorem date_window_keeps_one_more (series : ConflictCharts.TimeSeries)
  (c q g : string) (s e : option Z) (t : option string) :
  let w r := ConflictCharts.window (Filters.mk c r q g s e t) series
               (ConflictCharts.dates series) in
  w "1d"%string = last_n 2 (ConflictCharts.dates series) /\
  w "7d"%string = last_n 8 (ConflictCharts.dates series) /\
  w "30d"%string = last_n 31 (ConflictCharts.dates series) /\
  w "90d"%string = ConflictCharts.dates series /\
  w "1y"%string = ConflictCharts.dates series /\
  ConflictCharts.dates
    (ConflictCharts.filterTimeSeries (Filters.mk c "1d" q g s e t)
       ConflictCharts.mockTimeSeriesData)
  = ["2023-06-14"; "2023-06-15"]%string /\
  ConflictCharts.dates
    (ConflictCharts.filterTimeSeries (Filters.mk c "1d" q g s e t)
       ConflictCharts.mockTimeSeriesData)
  <> last_n 1 (ConflictCharts.dates ConflictCharts.mockTimeSeriesData).
Proof.
  intros w. unfold w.
  split; [apply (window_dates_last _ _ 1); reflexivity|].
  split; [apply (window_dates_last _ _ 7); reflexivity|].
  split; [apply (window_dates_last _ _ 30); reflexivity|].
  split; [rewrite window_dates; reflexivity|].
  split; [rewrite window_dates; reflexivity|].
  split; [reflexivity|].
  intros H. vm_compute in H. discriminate H.
Qed.

(** ** The region filter of the map *)

Section RegionFilter.

Import GeographicMap.






End RegionFilter.




(** ** The chart series *)

Section ChartSeries.

Import ConflictCharts.

Lemma in_push_if {A : Type} (b : bool) (x d : A) (ds : list A) :
  In d (push_if b x ds) <-> In d ds \/ (b = true /\ d = x).
Proof.
  unfold push_if. destruct b.
  - rewrite in_app_iff. simpl. split.
    + intros [H|[H|[]]]; [now left | right; now split].
    + intros [H|[_ H]]; [now left | right; now left].
  - split; [now left | intros [H|[H _]]; [exact H | discriminate H]].
Qed.

Lemma selected_spec (filters : Filters.t) (c : string) :
  selected filters c = true <->
  Filters.category filters = "all"%string \/ Filters.category filters = c.
Proof.
  unfold selected. now rewrite orb_true_iff, !String.eqb_eq.
Qed.

Lemma timeSeriesDatasets_In (filters : Filters.t) (s : TimeSeries)
  (d : Dataset) :
  In d (timeSeriesDatasets filters s) <->
  (selected filters "internal_conflict" = true /\
   d = mkDataset "Internal Conflict" (internal_conflict s)
         (Some "#f44336"%string) "rgba(244, 67, 54, 0.1)" (Some 0.4%Q)) \/
  (selected filters "external_conflict" = true /\
   d = mkDataset "External Conflict" (external_conflict s)
         (Some "#2196f3"%string) "rgba(33, 150, 243, 0.1)" (Some 0.4%Q)) \/
  (selected filters "economic_indicators" = true /\
   d = mkDataset "Economic Indicators" (economic_indicators s)
         (Some "#4caf50"%string) "rgba(76, 175, 80, 0.1)" (Some 0.4%Q)).
Proof.
  unfold timeSeriesDatasets. rewrite !in_push_if. simpl. tauto.
Qed.

Lemma priorityScoreDatasets_In (filters : Filters.t) (s : TimeSeries)
  (d : Dataset) :
  In d (priorityScoreDatasets filters s) <->
  (selected filters "internal_conflict" = true /\
   d = mkDataset "Internal Conflict" (internal_conflict s)
         None "rgba(244, 67, 54, 0.7)" None) \/
  (selected filters "external_conflict" = true /\
   d = mkDataset "External Conflict" (external_conflict s)
         None "rgba(33, 150, 243, 0.7)" None) \/
  (selected filters "economic_indicators" = true /\
   d = mkDataset "Economic Indicators" (economic_indicators s)
         None "rgba(76, 175, 80, 0.7)" None).
Proof.
  unfold priorityScoreDatasets. rewrite !in_push_if. simpl. tauto.
Qed.

End ChartSeries.

Ltac pick_series Hs :=
  first
    [ eexists; split; [left; split; [exact Hs | reflexivity] | reflexivity]
    | eexists; split;
        [right; left; split; [exact Hs | reflexivity] | reflexivity]
    | eexists; split;
        [right; right; split; [exact Hs | reflexivity] | reflexivity] ].

Ltac series_cases H Hl :=
  destruct H as [[H ->]|[[H ->]|[H ->]]]; simpl in Hl; try discriminate Hl.

(** C9.  For each of the three known categories, both charts contain the
    series labelled for it exactly when the criteria's category is "all" or
    that very category; a series that is contained carries the samples of
    its category and the category's fixed colour: as border colour and, at
    opacity 0.1, as fill in the line chart, and at opacity 0.7 as fill in
    the bar chart. *)
Theorem chart_series_follow_category (filters : Filters.t)
  (series scores : ConflictCharts.TimeSeries) (c : string) :
  In c known_categories ->
  ((exists d, In d (ConflictCharts.timeSeriesDatasets filters series) /\
              ConflictCharts.label d = series_label c) <->
   Filters.category filters = "all"%string \/ Filters.category filters = c) /\
  ((exists d, In d (ConflictCharts.priorityScoreDatasets filters scores) /\
              ConflictCharts.label d = series_label c) <->
   Filters.category filters = "all"%string \/ Filters.category filters = c) /\
  (forall d, In d (ConflictCharts.timeSeriesDatasets filters series) ->
     ConflictCharts.label d = series_label c ->
     ConflictCharts.data d = series_data c series /\
     ConflictCharts.borderColor d = Some (getCategoryColor c) /\
     ConflictCharts.backgroundColor d = rgba (getCategoryColor c) "0.1") /\
  (forall d, In d (ConflictCharts.priorityScoreDatasets filters scores) ->
     ConflictCharts.label d = series_label c ->
     ConflictCharts.data d = series_data c scores /\
     ConflictCharts.backgroundColor d = rgba (getCategoryColor c) "0.7").
Proof.
  intros Hc. rewrite <- selected_spec.
  destruct Hc as [<-|[<-|[<-|[]]]].
  all: split; [|split; [|split]].
  all: try (split;
            [ intros [d [H Hl]];
              first [apply timeSeriesDatasets_In in H
                    |apply priorityScoreDatasets_In in H];
              series_cases H Hl; exact H
            | intros Hs;
              first [ setoid_rewrite timeSeriesDatasets_In
                    | setoid_rewrite priorityScoreDatasets_In ];
              pick_series Hs ]).
  all: intros d H Hl;
       first [apply timeSeriesDatasets_In in H
             |apply priorityScoreDatasets_In in H];
       series_cases H Hl; repeat split; reflexivity.
Qed.

Lemma chart_series_follow_category_witness :
  (exists d,
     In d (ConflictCharts.timeSeriesDatasets
             (criteria "external_conflict" "")
             ConflictCharts.mockTimeSeriesData) /\
     ConflictCharts.label d = "External Conflict"%string) /\
  ~ (exists d,
     In d (ConflictCharts.timeSeriesDatasets
             (criteria "external_conflict" "")
             ConflictCharts.mockTimeSeriesData) /\
     ConflictCharts.label d = "Internal Conflict"%string).
Proof.
  split.
  - apply (chart_series_follow_category (criteria "external_conflict" "")
             ConflictCharts.mockTimeSeriesData
             ConflictCharts.mockPriorityScoreData "external_conflict").
    + right; left; reflexivity.
    + right; reflexivity.
  - intros H.
    apply (chart_series_follow_category (criteria "external_conflict" "")
             ConflictCharts.mockTimeSeriesData
             ConflictCharts.mockPriorityScoreData "internal_conflict") in H.
    + destruct H as [H|H]; discriminate H.
    + left; reflexivity.
Defined.

(** * Further properties of the feeds *)

Section FeedShape.

Lemma NewsFeed_apply_inv (filters : Filters.t) (items r : list Item)
  (limit : Z) :
  NewsFeed.apply filters items limit = Ok r ->
  exists s,
    NewsFeed.search_filter filters (NewsFeed.category_filter filters items)
      = Ok s /\
    r = slice (sort by_priority s) 0 limit.
Proof.
  unfold NewsFeed.apply.
  destruct (NewsFeed.search_filter _ _) as [s|e]; cbn [bind]; [|discriminate].
  intros [= <-]. now exists s.
Qed.

Lemma AnalystQuotes_apply_inv (filters : Filters.t) (items r : list Item)
  (limit : Z) :
  AnalystQuotes.apply filters items limit = Ok r ->
  exists s,
    AnalystQuotes.search_filter filters
      (AnalystQuotes.category_filter filters items) = Ok s /\
    r = slice (sort by_priority s) 0 limit.
Proof.
  unfold AnalystQuotes.apply.
  destruct (AnalystQuotes.search_filter _ _) as [s|e]; cbn [bind];
    [|discriminate].
  intros [= <-]. now exists s.
Qed.

Lemma NewsFeed_search_filter_incl (filters : Filters.t) (l s : list Item) :
  NewsFeed.search_filter filters l = Ok s -> forall x, In x s -> In x l.
Proof.
  unfold NewsFeed.search_filter. destruct (truthy _).
  - intros H x Hx. now destruct (filterM_incl _ _ _ H x Hx).
  - now intros [= <-].
Qed.

Lemma AnalystQuotes_search_filter_incl (filters : Filters.t)
  (l s : list Item) :
  AnalystQuotes.search_filter filters l = Ok s -> forall x, In x s -> In x l.
Proof.
  unfold AnalystQuotes.search_filter. destruct (truthy _).
  - intros H x Hx. now destruct (filterM_incl _ _ _ H x Hx).
  - now intros [= <-].
Qed.

Lemma slice_0_neg {A : Type} (l : list A) (n : Z) :
  n < 0 ->
  slice l 0 n = firstn (Z.to_nat (Z.of_nat (List.length l) + n)) l.
Proof.
  intros Hn. unfold slice, clamp_index.
  destruct (Z.ltb_spec0 0 0) as [H0|_]; [lia|].
  destruct (Z.ltb_spec0 n 0) as [_|H1]; [|lia].
  rewrite (Z.min_l 0) by lia. simpl skipn. rewrite Z.sub_0_r.
  f_equal. lia.
Qed.

Lemma slice_0_length_any {A : Type} (l : list A) (n : Z) :
  Z.of_nat (List.length (slice l 0 n))
  = clamp_index (Z.of_nat (List.length l)) n.
Proof.
  destruct (Z.lt_ge_cases n 0) as [Hn|Hn].
  - rewrite slice_0_neg by exact Hn. rewrite length_firstn.
    unfold clamp_index. destruct (Z.ltb_spec0 n 0); lia.
  - rewrite slice_0_length by exact Hn.
    unfold clamp_index. destruct (Z.ltb_spec0 n 0); lia.
Qed.

Lemma filterM_NoDup {A : Type} (p : A -> result bool) (l r : list A) :
  filterM p l = Ok r -> NoDup l -> NoDup r.
Proof.
  revert r. induction l as [|a l IH]; intros r H Hn.
  - injection H as <-. constructor.
  - cbn [filterM] in H.
    destruct (p a) as [b|e]; simpl in H; [|discriminate].
    destruct (filterM p l) as [r'|e] eqn:Er; simpl in H; [|discriminate].
    injection H as <-. inversion Hn as [|? ? Hna Hnl]; subst.
    destruct b; [|now apply IH]. constructor; [|now apply IH].
    intros Hin. apply Hna. now destruct (filterM_incl _ _ _ Er a Hin).
Qed.

Lemma NoDup_firstn {A : Type} (n : nat) (l : list A) :
  NoDup l -> NoDup (firstn n l).
Proof.
  intros H. rewrite <- (firstn_skipn n l) in H.
  now apply NoDup_app_remove_r in H.
Qed.

Lemma NoDup_slice {A : Type} (l : list A) (a b : Z) :
  NoDup l -> NoDup (slice l a b).
Proof.
  intros H. unfold slice. apply NoDup_firstn.
  rewrite <- (firstn_skipn (Z.to_nat (clamp_index (Z.of_nat (List.length l)) a)) l) in H.
  now apply NoDup_app_remove_l in H.
Qed.

Lemma ranked_NoDup (s : list Item) (limit : Z) :
  NoDup s -> NoDup (slice (sort by_priority s) 0 limit).
Proof.
  intros H. apply NoDup_slice.
  apply (Permutation_NoDup (l := s)); [symmetry; apply sort_perm | exact H].
Qed.

End FeedShape.

(** X1.  The number of items a feed returns is the limit clamped against
    the number of items that pass both filters: under a limit of at least
    zero it is the smaller of the two, so never more than the limit; a
    negative limit instead drops that many items from the end of the
    ranking. *)
Theorem result_length_is_clamped_limit (filters : Filters.t)
  (items : list Item) (limit : Z) :
  (forall s r,
     NewsFeed.search_filter filters (NewsFeed.category_filter filters items)
       = Ok s ->
     NewsFeed.apply filters items limit = Ok r ->
     Z.of_nat (List.length r) = clamp_index (Z.of_nat (List.length s)) limit /\
     (0 <= limit ->
      Z.of_nat (List.length r) = Z.min limit (Z.of_nat (List.length s))) /\
     (limit < 0 ->
      Z.of_nat (List.length r) = Z.max (Z.of_nat (List.length s) + limit) 0)) /\
  (forall s r,
     AnalystQuotes.search_filter filters
       (AnalystQuotes.category_filter filters items) = Ok s ->
     AnalystQuotes.apply filters items limit = Ok r ->
     Z.of_nat (List.length r) = clamp_index (Z.of_nat (List.length s)) limit /\
     (0 <= limit ->
      Z.of_nat (List.length r) = Z.min limit (Z.of_nat (List.length s))) /\
     (limit < 0 ->
      Z.of_nat (List.length r) = Z.max (Z.of_nat (List.length s) + limit) 0)).
Proof.
  split; intros s r Hs Hr.
  - apply NewsFeed_apply_inv in Hr. destruct Hr as [s' [Hs' ->]].
    rewrite Hs in Hs'. injection Hs' as <-.
    rewrite slice_0_length_any, sort_length. unfold clamp_index.
    destruct (Z.ltb_spec0 limit 0); repeat split; lia.
  - apply AnalystQuotes_apply_inv in Hr. destruct Hr as [s' [Hs' ->]].
    rewrite Hs in Hs'. injection Hs' as <-.
    rewrite slice_0_length_any, sort_length. unfold clamp_index.
    destruct (Z.ltb_spec0 limit 0); repeat split; lia.
Qed.

Lemma result_length_is_clamped_limit_witness :
  exists r,
    AnalystQuotes.apply (criteria "all" "") AnalystQuotes.mockAnalystQuotes 5
      = Ok r /\
    Z.of_nat (List.length r) = 5.
Proof.
  destruct (result_length_is_clamped_limit (criteria "all" "")
              AnalystQuotes.mockAnalystQuotes 5) as [_ H].
  eexists. split; [reflexivity|].
  destruct (H AnalystQuotes.mockAnalystQuotes _ eq_refl eq_refl)
    as [_ [Hmin _]].
  rewrite Hmin by lia. reflexivity.
Defined.

(** X2.  A feed returns only items of the collection it was given, and a
    collection without repeated items gives a result without repeated
    items. *)
Theorem result_comes_from_input (filters : Filters.t) (items r : list Item)
  (limit : Z) :
  (NewsFeed.apply filters items limit = Ok r ->
   (forall x, In x r -> In x items) /\ (NoDup items -> NoDup r)) /\
  (AnalystQuotes.apply filters items limit = Ok r ->
   (forall x, In x r -> In x items) /\ (NoDup items -> NoDup r)).
Proof.
  split; intros Hr.
  - apply NewsFeed_apply_inv in Hr. destruct Hr as [s [Hs ->]]. split.
    + intros x Hx. apply In_slice, sort_In in Hx.
      apply (NewsFeed_search_filter_incl _ _ _ Hs) in Hx.
      now apply NewsFeed_category_filter_incl in Hx.
    + intros Hn. apply ranked_NoDup.
      assert (Hc : NoDup (NewsFeed.category_filter filters items)).
      { unfold NewsFeed.category_filter.
        destruct (_ && _); [now apply NoDup_filter | exact Hn]. }
      unfold NewsFeed.search_filter in Hs. destruct (truthy _).
      * exact (filterM_NoDup _ _ _ Hs Hc).
      * now injection Hs as <-.
  - apply AnalystQuotes_apply_inv in Hr. destruct Hr as [s [Hs ->]]. split.
    + intros x Hx. apply In_slice, sort_In in Hx.
      apply (AnalystQuotes_search_filter_incl _ _ _ Hs) in Hx.
      now apply AnalystQuotes_category_filter_incl in Hx.
    + intros Hn. apply ranked_NoDup.
      assert (Hc : NoDup (AnalystQuotes.category_filter filters items)).
      { unfold AnalystQuotes.category_filter.
        destruct (_ && _); [now apply NoDup_filter | exact Hn]. }
      unfold AnalystQuotes.search_filter in Hs. destruct (truthy _).
      * exact (filterM_NoDup _ _ _ Hs Hc).
      * now injection Hs as <-.
Qed.

Lemma result_comes_from_input_witness :
  NoDup (slice (sort by_priority [dual_item; sample_quote]) 0 1).
Proof.
  apply (result_comes_from_input (criteria "all" "")
           [dual_item; sample_quote]
           (slice (sort by_priority [dual_item; sample_quote]) 0 1) 1).
  - reflexivity.
  - constructor; [intros [H|[]]; discriminate H|].
    constructor; [intros []|constructor].
Defined.

Section Ranking.

Lemma slice_0_is_firstn {A : Type} (l : list A) (n : Z) :
  exists k, slice l 0 n = firstn k l.
Proof.
  destruct (Z.lt_ge_cases n 0) as [Hn|Hn].
  - eexists. now apply slice_0_neg.
  - eexists. now apply slice_0_firstn.
Qed.

Lemma has_score_self (x : Item) (p : Q) :
  priority_score x = Some p -> has_score p x = true.
Proof. intros H. unfold has_score. rewrite H. apply Qeq_bool_iff. reflexivity. Qed.

Lemma priority_ge_refl (x : Item) :
  priority_score x <> None -> priority_ge x x.
Proof.
  intros H. unfold priority_ge. destruct (priority_score x); [lra|now elim H].
Qed.

Lemma sorted_head_ge (x : Item) (l : list Item) (y : Item) :
  priority_score x <> None ->
  StronglySorted priority_ge (x :: l) -> In y (x :: l) -> priority_ge x y.
Proof.
  intros Hx Hs [<-|Hy]; [now apply priority_ge_refl|].
  inversion Hs as [|? ? _ Hall]; subst.
  rewrite Forall_forall in Hall. now apply Hall.
Qed.

(** Two descending lists of scored items that agree, score by score, on
    the sequence of items carrying that score are the same list. *)
Lemma stable_descending_unique (a b : list Item) :
  all_scored a -> all_scored b ->
  StronglySorted priority_ge a -> StronglySorted priority_ge b ->
  (forall s, filter (has_score s) a = filter (has_score s) b) ->
  a = b.
Proof.
  revert b. induction a as [|x a IH]; intros b Ha Hb Sa Sb Hf.
  - destruct b as [|y b]; [reflexivity|].
    inversion Hb as [|? ? Hy _]; subst.
    destruct (priority_score y) as [py|] eqn:Ey; [|now elim Hy].
    specialize (Hf py). cbn [filter] in Hf.
    rewrite (has_score_self y py Ey) in Hf. discriminate Hf.
  - inversion Ha as [|? ? Hx Ha']; subst.
    destruct (priority_score x) as [px|] eqn:Ex; [|now elim Hx].
    pose proof (Hf px) as Hpx. cbn [filter] in Hpx.
    rewrite (has_score_self x px Ex) in Hpx.
    destruct b as [|y b]; [discriminate Hpx|].
    inversion Hb as [|? ? Hy Hb']; subst.
    destruct (priority_score y) as [py|] eqn:Ey; [|now elim Hy].
    assert (Hxb : In x (y :: b)).
    { assert (H : In x (filter (has_score px) (y :: b)))
        by (rewrite <- Hpx; now left).
      now apply filter_In in H. }
    assert (Hya : In y (x :: a)).
    { assert (H : In y (filter (has_score py) (x :: a))).
      { rewrite (Hf py). cbn [filter].
        rewrite (has_score_self y py Ey). now left. }
      now apply filter_In in H. }
    assert (Hyx : priority_ge y x).
    { apply (sorted_head_ge y b); [congruence | exact Sb | exact Hxb]. }
    assert (Hxy : priority_ge x y).
    { apply (sorted_head_ge x a); [congruence | exact Sa | exact Hya]. }
    unfold priority_ge in Hyx, Hxy. rewrite Ex, Ey in Hyx, Hxy.
    assert (Hy' : has_score px y = true).
    { unfold has_score. rewrite Ey. apply Qeq_bool_iff. lra. }
    cbn [filter] in Hpx. rewrite Hy' in Hpx. injection Hpx as <- _.
    f_equal. apply IH.
    + exact Ha'.
    + exact Hb'.
    + now inversion Sa.
    + now inversion Sb.
    + intros s. specialize (Hf s). cbn [filter] in Hf.
      destruct (has_score s x); [now injection Hf | exact Hf].
Qed.

End Ranking.

(** X3.  Raising the limit only appends lower-ranked items: under limits
    [0 <= n <= m] the result for [n] is the first [n] items of the result
    for [m]. *)
Theorem raising_limit_extends_result (filters : Filters.t)
  (items rn rm : list Item) (n m : Z) :
  0 <= n <= m ->
  (NewsFeed.apply filters items n = Ok rn ->
   NewsFeed.apply filters items m = Ok rm ->
   rn = firstn (Z.to_nat n) rm) /\
  (AnalystQuotes.apply filters items n = Ok rn ->
   AnalystQuotes.apply filters items m = Ok rm ->
   rn = firstn (Z.to_nat n) rm).
Proof.
  intros Hnm. split; intros Hn Hm.
  - apply NewsFeed_apply_inv in Hn, Hm.
    destruct Hn as [s [Hs ->]]. destruct Hm as [s' [Hs' ->]].
    rewrite Hs in Hs'. injection Hs' as <-.
    rewrite !slice_0_firstn by lia. rewrite firstn_firstn. f_equal. lia.
  - apply AnalystQuotes_apply_inv in Hn, Hm.
    destruct Hn as [s [Hs ->]]. destruct Hm as [s' [Hs' ->]].
    rewrite Hs in Hs'. injection Hs' as <-.
    rewrite !slice_0_firstn by lia. rewrite firstn_firstn. f_equal. lia.
Qed.

Lemma raising_limit_extends_result_witness :
  slice (sort by_priority AnalystQuotes.mockAnalystQuotes) 0 5
  = firstn (Z.to_nat 5)
      (slice (sort by_priority AnalystQuotes.mockAnalystQuotes) 0 10).
Proof.
  apply (raising_limit_extends_result (criteria "all" "")
           AnalystQuotes.mockAnalystQuotes _ _ 5 10);
    [lia | reflexivity | reflexivity].
Defined.

(** X4.  When every item of the collection has a priority score, the first
    item a feed returns has a score at least as high as every item that
    passed the two filters. *)
Theorem first_result_has_top_priority (filters : Filters.t)
  (items s r : list Item) (x y : Item) (limit : Z) :
  all_scored items ->
  In y s ->
  (NewsFeed.search_filter filters (NewsFeed.category_filter filters items)
     = Ok s ->
   NewsFeed.apply filters items limit = Ok (x :: r) -> priority_ge x y) /\
  (AnalystQuotes.search_filter filters
     (AnalystQuotes.category_filter filters items) = Ok s ->
   AnalystQuotes.apply filters items limit = Ok (x :: r) -> priority_ge x y).
Proof.
  intros Hall Hy.
  assert (Hkey : (forall z, In z s -> In z items) ->
                 slice (sort by_priority s) 0 limit = x :: r ->
                 priority_ge x y).
  { intros Hincl Hr.
    assert (Hs : all_scored s).
    { unfold all_scored in *. rewrite Forall_forall in *.
      intros z Hz. apply Hall, Hincl, Hz. }
    pose proof (sort_sorted s Hs) as Hsorted.
    destruct (slice_0_is_firstn (sort by_priority s) limit) as [k Hk].
    rewrite Hk in Hr.
    destruct (sort by_priority s) as [|h t] eqn:Es;
      [rewrite firstn_nil in Hr; discriminate Hr|].
    destruct k; [discriminate Hr|]. cbn [firstn] in Hr. injection Hr as -> _.
    apply (sorted_head_ge x t); [|exact Hsorted|].
    - unfold all_scored in Hs. rewrite Forall_forall in Hs. apply Hs.
      apply (sort_In by_priority). rewrite Es. now left.
    - rewrite <- Es. now apply sort_In. }
  split; intros Hs Hr.
  - apply NewsFeed_apply_inv in Hr. destruct Hr as [s' [Hs' Hr]].
    rewrite Hs in Hs'. injection Hs' as <-. apply Hkey; [|now symmetry].
    intros z Hz. apply (NewsFeed_search_filter_incl _ _ _ Hs) in Hz.
    now apply NewsFeed_category_filter_incl in Hz.
  - apply AnalystQuotes_apply_inv in Hr. destruct Hr as [s' [Hs' Hr]].
    rewrite Hs in Hs'. injection Hs' as <-. apply Hkey; [|now symmetry].
    intros z Hz. apply (AnalystQuotes_search_filter_incl _ _ _ Hs) in Hz.
    now apply AnalystQuotes_category_filter_incl in Hz.
Qed.

Lemma first_result_has_top_priority_witness :
  priority_ge sample_quote dual_item.
Proof.
  apply (first_result_has_top_priority (criteria "all" "")
           [dual_item; sample_quote] [dual_item; sample_quote] [dual_item]
           sample_quote dual_item 10).
  - repeat constructor; discriminate.
  - now left.
  - reflexivity.
  - reflexivity.
Defined.

(** X5.  On items that all have a priority score the rank step returns the
    only arrangement that is a permutation of its input, descending by score
    and stable; the result therefore does not depend on the sorting
    algorithm of the engine. *)
Theorem rank_is_the_only_stable_descending_order (l l' : list Item) :
  all_scored l ->
  Permutation l' l ->
  StronglySorted priority_ge l' ->
  (forall s, filter (has_score s) l' = filter (has_score s) l) ->
  l' = sort by_priority l.
Proof.
  intros Hl Hp Hs Hf. apply stable_descending_unique.
  - apply (all_scored_perm l); [now symmetry | exact Hl].
  - apply (all_scored_perm l); [symmetry; apply sort_perm | exact Hl].
  - exact Hs.
  - now apply sort_sorted.
  - intros s. rewrite Hf. symmetry. apply sort_filter.
    intros x z. apply has_score_keeps_before.
Qed.

Lemma rank_is_the_only_stable_descending_order_witness :
  [sample_quote; dual_item; low_item]
  = sort by_priority [low_item; sample_quote; dual_item].
Proof.
  apply rank_is_the_only_stable_descending_order.
  - repeat constructor; discriminate.
  - apply Permutation_sym, Permutation_cons_append.
  - repeat constructor; unfold priority_ge; simpl; lra.
  - intros s. unfold has_score. simpl.
    destruct (Qeq_bool 9 s) eqn:E9, (Qeq_bool 90.2 s) eqn:E90,
             (Qeq_bool 85.5 s) eqn:E85; try reflexivity;
      apply Qeq_bool_iff in E9; try apply Qeq_bool_iff in E90;
      try apply Qeq_bool_iff in E85; lra.
Defined.

(** ** Errors and short-circuits of the quote search *)

Section QuoteSearch.

Lemma filterM_throw {A : Type} (p : A -> result bool) (l : list A) (x : A)
  (e0 : error) :
  In x l -> p x = Throw e0 -> exists e, filterM p l = Throw e.
Proof.
  induction l as [|a l IH]; intros Hx Hp; [destruct Hx|].
  cbn [filterM]. destruct (p a) as [b|e] eqn:Ea; cbn [bind];
    [|now exists e].
  destruct Hx as [->|Hx]; [congruence|].
  destruct (IH Hx Hp) as [e He]. rewrite He. now exists e.
Qed.

Lemma truthy_toLowerCase (s : string) : truthy (toLowerCase s) = truthy s.
Proof. now destruct s. Qed.

End QuoteSearch.

(** X6.  Under a search query the analyst quotes throw as soon as one quote
    that passes the category filter has no content. *)
Theorem quote_without_content_aborts_search (filters : Filters.t)
  (items : list Item) (limit : Z) (x : Item) :
  Filters.searchQuery filters <> ""%string ->
  In x (AnalystQuotes.category_filter filters items) ->
  content x = None ->
  exists e, AnalystQuotes.apply filters items limit = Throw e.
Proof.
  intros Hq Hx Hc. apply truthy_true in Hq.
  unfold AnalystQuotes.apply, AnalystQuotes.search_filter. rewrite Hq.
  destruct (filterM_throw
              (AnalystQuotes.matches_search
                 (toLowerCase (Filters.searchQuery filters)))
              (AnalystQuotes.category_filter filters items) x
              (TypeError "content") Hx) as [e He].
  - unfold AnalystQuotes.matches_search. now rewrite Hc.
  - rewrite He. now exists e.
Qed.

Lemma quote_without_content_aborts_search_witness :
  exists e,
    AnalystQuotes.apply (criteria "external_conflict" "ray")
      [sample_quote; textless_quote] 5 = Throw e.
Proof.
  apply (quote_without_content_aborts_search
           (criteria "external_conflict" "ray")
           [sample_quote; textless_quote] 5 textless_quote).
  - discriminate.
  - right. left. reflexivity.
  - reflexivity.
Defined.

(** X7.  The quote search stops at the first text that matches: when the
    content of every quote that passes the category filter contains the
    query, the run returns all of them, ranked and limited, whether or not
    they carry an analyst name or an organization. *)
Theorem quote_search_stops_at_matching_content (filters : Filters.t)
  (items : list Item) (limit : Z) :
  Filters.searchQuery filters <> ""%string ->
  (forall x, In x (AnalystQuotes.category_filter filters items) ->
             contains_lower (content x)
               (toLowerCase (Filters.searchQuery filters))) ->
  AnalystQuotes.apply filters items limit
  = Ok (slice (sort by_priority (AnalystQuotes.category_filter filters items))
          0 limit).
Proof.
  intros Hq Hall. apply truthy_true in Hq.
  unfold AnalystQuotes.apply, AnalystQuotes.search_filter. rewrite Hq.
  rewrite filterM_all; [reflexivity|].
  intros x Hx. destruct (Hall x Hx) as [t [Ht Hsub]].
  unfold AnalystQuotes.matches_search. rewrite Ht. cbn.
  apply includes_spec in Hsub. now rewrite Hsub.
Qed.

Lemma quote_search_stops_at_matching_content_witness :
  AnalystQuotes.apply (criteria "all" "NO SCORE") [unscored_item] 5
  = Ok (slice (sort by_priority
                 (AnalystQuotes.category_filter (criteria "all" "NO SCORE")
                    [unscored_item])) 0 5).
Proof.
  apply quote_search_stops_at_matching_content.
  - discriminate.
  - intros x [<-|[]]. exists "No score yet"%string. split; [reflexivity|].
    now exists ""%string, " yet"%string.
Defined.

(** X8.  On entries without a title, whatever the article feed's search
    retains the quote search retains too: the content is the only text the
    feed reads, and the quote search reads it first. *)
Theorem feed_search_within_quote_search (filters : Filters.t)
  (l s1 s2 : list Item) (x : Item) :
  (forall y, In y l -> title y = None) ->
  NewsFeed.search_filter filters l = Ok s1 ->
  AnalystQuotes.search_filter filters l = Ok s2 ->
  In x s1 -> In x s2.
Proof.
  intros Ht H1 H2 Hx.
  unfold NewsFeed.search_filter in H1.
  unfold AnalystQuotes.search_filter in H2.
  destruct (truthy (Filters.searchQuery filters)).
  - destruct (filterM_incl _ _ _ H1 x Hx) as [Hl Hm].
    apply (filterM_complete _ _ _ x H2 Hl).
    unfold NewsFeed.matches_search in Hm. rewrite (Ht x Hl) in Hm.
    unfold AnalystQuotes.matches_search.
    destruct (content x) as [c|]; [|discriminate Hm].
    cbn in Hm |- *. injection Hm as Hm. now rewrite Hm.
  - injection H1 as <-. now injection H2 as <-.
Qed.

Lemma feed_search_within_quote_search_witness :
  In sample_quote [sample_quote].
Proof.
  apply (feed_search_within_quote_search (criteria "all" "deglobal")
           [sample_quote] [sample_quote] [sample_quote] sample_quote).
  - intros y [<-|[]]. reflexivity.
  - reflexivity.
  - reflexivity.
  - now left.
Defined.

(** X9.  The search ignores the letter case of the query: two criteria
    whose queries agree after lower-casing give the same search result in
    both feeds. *)
Theorem search_ignores_query_case (f1 f2 : Filters.t) (l : list Item) :
  toLowerCase (Filters.searchQuery f1) = toLowerCase (Filters.searchQuery f2) ->
  NewsFeed.search_filter f1 l = NewsFeed.search_filter f2 l /\
  AnalystQuotes.search_filter f1 l = AnalystQuotes.search_filter f2 l.
Proof.
  intros H.
  assert (Ht : truthy (Filters.searchQuery f1) = truthy (Filters.searchQuery f2)).
  { rewrite <- (truthy_toLowerCase (Filters.searchQuery f1)), H.
    apply truthy_toLowerCase. }
  unfold NewsFeed.search_filter, AnalystQuotes.search_filter.
  now rewrite Ht, H.
Qed.

Lemma search_ignores_query_case_witness :
  NewsFeed.search_filter (criteria "all" "TARIFFS") NewsFeed.mockArticles
  = NewsFeed.search_filter (criteria "all" "Tariffs") NewsFeed.mockArticles.
Proof.
  apply (search_ignores_query_case (criteria "all" "TARIFFS")
           (criteria "all" "Tariffs")). reflexivity.
Defined.

(** * Further properties of the map *)

Section MapFacts.

Import GeographicMap.

Lemma lookup_None {V : Type} (entries : list (string * V)) (key : string) :
  ~ In key (map fst entries) -> lookup entries key = None.
Proof.
  induction entries as [|[k v] rest IH]; intros H; [reflexivity|].
  cbn [lookup]. destruct (String.eqb_spec k key) as [->|Hk].
  - elim H. now left.
  - apply IH. intros Hin. apply H. now right.
Qed.

Lemma filter_comm {A : Type} (P Q : A -> bool) (l : list A) :
  filter P (filter Q l) = filter Q (filter P l).
Proof.
  induction l as [|a l IH]; [reflexivity|]. cbn [filter].
  destruct (Q a) eqn:Eq, (P a) eqn:Ep; cbn [filter];
    rewrite ?Eq, ?Ep, IH; reflexivity.
Qed.

Lemma filter_idem {A : Type} (P : A -> bool) (l : list A) :
  filter P (filter P l) = filter P l.
Proof. apply filter_all. intros x Hx. now apply filter_In in Hx. Qed.

Lemma category_filter_idem (filters : Filters.t) (hs : list Hotspot) :
  category_filter filters (category_filter filters hs)
  = category_filter filters hs.
Proof.
  unfold category_filter. destruct (_ && _); [apply filter_idem|reflexivity].
Qed.

Lemma region_filter_cases (filters : Filters.t) (hs : list Hotspot) :
  (exists P, forall l, region_filter filters l = Ok (filter P l)) \/
  (exists e, forall l, region_filter filters l = Throw e).
Proof.
  unfold region_filter.
  destruct (truthy (Filters.region filters) && _).
  - destruct (get regionCoordinates (Filters.region filters)) as [c| |].
    + left. now exists (near c).
    + right. now eexists.
    + left. exists (fun _ => true). intros l. now rewrite filter_true.
  - left. exists (fun _ => true). intros l. now rewrite filter_true.
Qed.

Lemma category_filter_is_filter (filters : Filters.t) :
  exists P, forall l, category_filter filters l = filter P l.
Proof.
  unfold category_filter. destruct (_ && _).
  - now eexists.
  - exists (fun _ => true). intros l. now rewrite filter_true.
Qed.

End MapFacts.

(** X10.  A region that names neither one of the five keys of the
    coordinate table nor a member every object inherits filters nothing:
    the region step returns the hotspots unchanged.  A region that names
    an inherited member, such as "constructor", makes the step throw. *)
Theorem unknown_region_filters_nothing (filters : Filters.t)
  (hotspots : list GeographicMap.Hotspot) :
  ~ In (Filters.region filters)
       ["us"; "europe"; "asia"; "middle_east"; "latin_america"]%string ->
  (~ In (Filters.region filters) Object_prototype ->
   GeographicMap.region_filter filters hotspots = Ok hotspots) /\
  (In (Filters.region filters) Object_prototype ->
   exists e, GeographicMap.region_filter filters hotspots = Throw e).
Proof.
  intros H. unfold GeographicMap.region_filter, GeographicMap.get.
  rewrite (lookup_None GeographicMap.regionCoordinates _ H).
  split; intros Hp.
  - destruct (_ && _); [|reflexivity].
    destruct (existsb _ _) eqn:E; [|reflexivity].
    apply existsb_exists in E. destruct E as [k [Hk Ek]].
    apply String.eqb_eq in Ek. subst k. now elim Hp.
  - assert (E : existsb (String.eqb (Filters.region filters))
                  Object_prototype = true).
    { apply existsb_exists. exists (Filters.region filters).
      split; [exact Hp | apply String.eqb_refl]. }
    rewrite E.
    assert (Ht : truthy (Filters.region filters)
                 && negb (Filters.region filters =? "global")%string = true).
    { simpl in Hp.
      repeat (destruct Hp as [Hp|Hp]; [rewrite <- Hp; reflexivity|]).
      destruct Hp. }
    rewrite Ht. now eexists.
Qed.

Lemma unknown_region_filters_nothing_witness :
  GeographicMap.region_filter
    (Filters.mk "all" "7d" "" "africa" None None None)
    GeographicMap.mockHotspots
  = Ok GeographicMap.mockHotspots /\
  exists e,
    GeographicMap.region_filter
      (Filters.mk "all" "7d" "" "constructor" None None None)
      GeographicMap.mockHotspots = Throw e.
Proof.
  split.
  - apply unknown_region_filters_nothing; simpl.
    + intros [H|[H|[H|[H|[H|[]]]]]]; discriminate H.
    + intros H.
      repeat (destruct H as [H|H]; [discriminate H|]). exact H.
  - apply unknown_region_filters_nothing; simpl.
    + intros [H|[H|[H|[H|[H|[]]]]]]; discriminate H.
    + now left.
Defined.

(** X11.  The two filters of the map commute, applying the map's effect to
    its own result changes nothing, and every hotspot it returns is one of
    the hotspots it was given. *)
Theorem map_effect_composes (filters : Filters.t)
  (hotspots : list GeographicMap.Hotspot) :
  GeographicMap.effect hotspots filters
  = (r <- GeographicMap.region_filter filters hotspots ;;
     Ok (GeographicMap.category_filter filters r)) /\
  (r <- GeographicMap.effect hotspots filters ;;
   GeographicMap.effect r filters)
  = GeographicMap.effect hotspots filters /\
  (forall r h, GeographicMap.effect hotspots filters = Ok r ->
               In h r -> In h hotspots).
Proof.
  unfold GeographicMap.effect.
  destruct (category_filter_is_filter filters) as [P HP].
  destruct (region_filter_cases filters hotspots) as [[Q HQ]|[e He]].
  - rewrite !HQ, !HP. cbn [bind]. rewrite HP, HQ. split; [|split].
    + f_equal. apply filter_comm.
    + f_equal. rewrite HP.
      rewrite (filter_comm P Q (filter P hotspots)).
      now rewrite !filter_idem.
    + intros r h [= <-] Hh. apply filter_In in Hh as [Hh _].
      now apply filter_In in Hh.
  - rewrite !He. cbn [bind]. split; [reflexivity|].
    split; [reflexivity | discriminate].
Qed.

Lemma map_effect_composes_witness :
  exists r,
    GeographicMap.GeographicMap
      (Filters.mk "internal_conflict" "7d" "" "us" None None None) = Ok r /\
    forall h, In h r -> In h GeographicMap.mockHotspots.
Proof.
  eexists. split; [reflexivity|]. intros h.
  apply (map_effect_composes
           (Filters.mk "internal_conflict" "7d" "" "us" None None None)
           GeographicMap.mockHotspots).
  reflexivity.
Defined.



(** X13.  The map and the feeds colour a category alike; the three known
    categories have three different colours, and grey marks exactly the
    categories that are not known. *)
Theorem category_colours_agree (c c' : string) :
  GeographicMap.getMarkerColor c = getCategoryColor c /\
  (In c known_categories -> In c' known_categories ->
   getCategoryColor c = getCategoryColor c' -> c = c') /\
  (getCategoryColor c = "#9e9e9e"%string <-> ~ In c known_categories).
Proof.
  split; [reflexivity|]. split.
  - intros [<-|[<-|[<-|[]]]] [<-|[<-|[<-|[]]]] H;
      try reflexivity; discriminate H.
  - unfold getCategoryColor, known_categories. simpl.
    destruct (String.eqb_spec c "internal_conflict") as [->|H1];
      [split; [discriminate | intros H; elim H; now left]|].
    destruct (String.eqb_spec c "external_conflict") as [->|H2];
      [split; [discriminate | intros H; elim H; right; now left]|].
    destruct (String.eqb_spec c "economic_indicators") as [->|H3];
      [split; [discriminate | intros H; elim H; right; right; now left]|].
    split; [|reflexivity].
    intros _ [H|[H|[H|[]]]]; congruence.
Qed.

Lemma category_colours_agree_witness :
  "internal_conflict"%string = "internal_conflict"%string.
Proof.
  apply (category_colours_agree "internal_conflict" "internal_conflict");
    try (left; reflexivity); reflexivity.
Defined.

(** * Further properties of the charts *)

Section ChartFacts.

Import ConflictCharts.

Lemma startIndex_bounds (filters : Filters.t) (n : Z) :
  0 <= n -> 0 <= startIndex filters (n - 1) <= n.
Proof.
  intros Hn. unfold startIndex, Math_max.
  destruct (_ =? _)%string; [lia|].
  destruct (_ =? _)%string; [lia|].
  destruct (_ =? _)%string; lia.
Qed.

(** On an array as long as [dates] the window is the array from the start
    index on. *)
Lemma window_aligned {A : Type} (filters : Filters.t) (series : TimeSeries)
  (arr : list A) :
  List.length arr = List.length (dates series) ->
  window filters series arr
  = skipn (Z.to_nat (startIndex filters
                       (Z.of_nat (List.length (dates series)) - 1))) arr.
Proof.
  intros Hlen. unfold window. rewrite <- Hlen.
  replace (Z.of_nat (List.length arr) - 1 + 1)
    with (Z.of_nat (List.length arr)) by lia.
  apply slice_to_end. apply startIndex_bounds. lia.
Qed.

End ChartFacts.

(** X14.  The date window keeps the series in step with the dates: when each
    series has as many samples as there are dates, the windowed series are
    the original ones from one common start index on, and again have as
    many samples as the windowed dates. *)
Theorem date_window_keeps_series_aligned (filters : Filters.t)
  (series : ConflictCharts.TimeSeries) :
  aligned series ->
  aligned (ConflictCharts.filterTimeSeries filters series) /\
  exists k : nat,
    let w := ConflictCharts.filterTimeSeries filters series in
    ConflictCharts.dates w = skipn k (ConflictCharts.dates series) /\
    ConflictCharts.internal_conflict w
      = skipn k (ConflictCharts.internal_conflict series) /\
    ConflictCharts.external_conflict w
      = skipn k (ConflictCharts.external_conflict series) /\
    ConflictCharts.economic_indicators w
      = skipn k (ConflictCharts.economic_indicators series).
Proof.
  intros [Hi [He Hc]].
  pose proof (window_aligned filters series (ConflictCharts.dates series)
                eq_refl) as Wd.
  pose proof (window_aligned filters series _ Hi) as Wi.
  pose proof (window_aligned filters series _ He) as We.
  pose proof (window_aligned filters series _ Hc) as Wc.
  split.
  - unfold aligned, ConflictCharts.filterTimeSeries. cbn.
    rewrite Wd, Wi, We, Wc, !length_skipn. lia.
  - eexists. cbn. repeat split; eassumption.
Qed.

Lemma date_window_keeps_series_aligned_witness :
  aligned (ConflictCharts.filterTimeSeries (criteria "all" "")
             ConflictCharts.mockTimeSeriesData).
Proof.
  apply (date_window_keeps_series_aligned (criteria "all" "")
           ConflictCharts.mockTimeSeriesData).
  repeat split; reflexivity.
Defined.

(** X15.  The bar chart of priority scores is never windowed: it depends on
    the criteria through the category alone, so two criteria with the same
    category give the same bar chart whatever their date range, and
    whatever time series feeds the line chart. *)
Theorem bar_chart_ignores_date_range (formatLabel : string -> string)
  (f1 f2 : Filters.t) (series1 series2 scores : ConflictCharts.TimeSeries) :
  Filters.category f1 = Filters.category f2 ->
  snd (ConflictCharts.effect formatLabel series1 scores f1)
  = snd (ConflictCharts.effect formatLabel series2 scores f2) /\
  ConflictCharts.labels
    (snd (ConflictCharts.effect formatLabel series1 scores f1))
  = map formatLabel (ConflictCharts.dates scores).
Proof.
  intros H. unfold ConflictCharts.effect,
    ConflictCharts.priorityScoreDatasets, ConflictCharts.selected. cbn.
  now rewrite H.
Qed.

Lemma bar_chart_ignores_date_range_witness :
  snd (ConflictCharts.effect (fun d => d)
         ConflictCharts.mockTimeSeriesData
         ConflictCharts.mockPriorityScoreData
         (Filters.mk "all" "1d" "" "global" None None None))
  = snd (ConflictCharts.effect (fun d => d)
           ConflictCharts.mockTimeSeriesData
           ConflictCharts.mockPriorityScoreData
           (Filters.mk "all" "30d" "" "global" None None None)).
Proof.
  apply (bar_chart_ignores_date_range (fun d => d)
           (Filters.mk "all" "1d" "" "global" None None None)
           (Filters.mk "all" "30d" "" "global" None None None)).
  reflexivity.
Defined.

(** X16.  A chart shows three series under "all", one under a known
    category and none under any other category, always in the order
    internal conflict, external conflict, economic indicators. *)
Theorem chart_series_count (filters : Filters.t)
  (series : ConflictCharts.TimeSeries) :
  let c := Filters.category filters in
  let line := map ConflictCharts.label
                (ConflictCharts.timeSeriesDatasets filters series) in
  let bars := map ConflictCharts.label
                (ConflictCharts.priorityScoreDatasets filters series) in
  line = bars /\
  (c = "all"%string ->
   line = map series_label known_categories) /\
  (In c known_categories -> line = [series_label c]) /\
  (c <> "all"%string -> ~ In c known_categories -> line = []).
Proof.
  intros c line bars. subst line bars.
  unfold ConflictCharts.timeSeriesDatasets,
    ConflictCharts.priorityScoreDatasets, ConflictCharts.selected,
    ConflictCharts.push_if. fold c.
  split; [|split; [|split]].
  - destruct (c =? "all")%string; cbn;
      destruct (c =? "internal_conflict")%string,
               (c =? "external_conflict")%string,
               (c =? "economic_indicators")%string; reflexivity.
  - intros ->. reflexivity.
  - intros [<-|[<-|[<-|[]]]]; reflexivity.
  - intros Hall Hk. simpl in Hk.
    apply String.eqb_neq in Hall. rewrite Hall. cbn.
    destruct (String.eqb_spec c "internal_conflict") as [E|_];
      [elim Hk; left; now rewrite E|].
    destruct (String.eqb_spec c "external_conflict") as [E|_];
      [elim Hk; right; left; now rewrite E|].
    destruct (String.eqb_spec c "economic_indicators") as [E|_];
      [elim Hk; right; right; left; now rewrite E|].
    reflexivity.
Qed.

Lemma chart_series_count_witness :
  map ConflictCharts.label
    (ConflictCharts.timeSeriesDatasets (criteria "sports" "")
       ConflictCharts.mockTimeSeriesData) = [].
Proof.
  apply (chart_series_count (criteria "sports" "")
           ConflictCharts.mockTimeSeriesData).
  - discriminate.
  - simpl. intros [H|[H|[H|[]]]]; discriminate H.
Defined.

(** * Properties of the shell *)

(** X17.  An update from the filter panel always replaces the four
    selectors and never touches the data type; it replaces the two dates
    only when the range is "custom" and both dates are set, and otherwise
    leaves the dates of the previous state in place, so dates chosen once
    stay in the criteria after the range is switched away from "custom". *)
Theorem update_keeps_earlier_dates (filters : Filters.t)
  (s : SearchFilter.State) :
  let f' := Dashboard.handleFilterChange filters (SearchFilter.filters s) in
  Filters.category f' = SearchFilter.category s /\
  Filters.dateRange f' = SearchFilter.dateRange s /\
  Filters.searchQuery f' = SearchFilter.searchQuery s /\
  Filters.region f' = SearchFilter.region s /\
  Filters.dataType f' = Filters.dataType filters /\
  (forall a b,
     SearchFilter.dateRange s = "custom"%string ->
     SearchFilter.startDate s = Some a -> SearchFilter.endDate s = Some b ->
     Filters.startDate f' = Some a /\ Filters.endDate f' = Some b) /\
  (SearchFilter.dateRange s <> "custom"%string \/
   SearchFilter.startDate s = None \/ SearchFilter.endDate s = None ->
   Filters.startDate f' = Filters.startDate filters /\
   Filters.endDate f' = Filters.endDate filters).
Proof.
  intros f'. subst f'. unfold SearchFilter.filters.
  destruct (String.eqb_spec (SearchFilter.dateRange s) "custom") as [Ec|Ec];
    destruct (SearchFilter.startDate s) as [a0|] eqn:Ea;
    destruct (SearchFilter.endDate s) as [b0|] eqn:Eb; cbn;
    repeat split; try reflexivity; try congruence;
    match goal with
    | H : _ \/ _ |- _ => destruct H as [H|[H|H]]; congruence
    end.
Qed.

Lemma update_keeps_earlier_dates_witness :
  Filters.startDate
    (Dashboard.handleFilterChange
       (Filters.mk "all" "custom" "" "global" (Some 100) (Some 200) None)
       (SearchFilter.filters
          (SearchFilter.mkState "all" "7d" "" "global" None None)))
  = Some 100.
Proof.
  apply (update_keeps_earlier_dates
           (Filters.mk "all" "custom" "" "global" (Some 100) (Some 200) None)
           (SearchFilter.mkState "all" "7d" "" "global" None None)).
  left. discriminate.
Defined.



(** * Properties of the cards *)

Section Cards.

Lemma empty_has_no_substring (q pre post : string) :
  ""%string = (pre ++ q ++ post)%string -> q = ""%string.
Proof.
  destruct pre; [|discriminate]. destruct q; [reflexivity|discriminate].
Qed.

Lemma toLowerCase_empty (t : string) :
  toLowerCase t = ""%string -> t = ""%string.
Proof. destruct t; [reflexivity|discriminate]. Qed.

Lemma string_length_append (s1 s2 : string) :
  String.length (s1 ++ s2) = (String.length s1 + String.length s2)%nat.
Proof. induction s1 as [|a s1 IH]; cbn; [reflexivity | now rewrite IH]. Qed.

Lemma string_length_substring_0 (m : nat) (s : string) :
  (String.length (String.substring 0 m s) <= m)%nat.
Proof.
  revert s. induction m as [|m IH]; intros s.
  - destruct s; cbn; lia.
  - destruct s as [|a s]; cbn; [lia|]. specialize (IH s). lia.
Qed.

Lemma heading_ok_iff (it : Item) :
  (exists h, NewsFeed.heading it = Ok h) <->
  (exists t, title it = Some t /\ t <> ""%string) \/ content it <> None.
Proof.
  unfold NewsFeed.heading. split.
  - intros [h H]. destruct (title it) as [t|].
    + destruct t as [|a t]; cbn in H.
      * right. destruct (content it); [discriminate|discriminate H].
      * left. exists (String a t). split; [reflexivity|discriminate].
    + right. destruct (content it); [discriminate|discriminate H].
  - intros [[t [Ht Hne]]|Hc].
    + rewrite Ht. destruct t; [now elim Hne|]. cbn. now eexists.
    + destruct (content it) as [c|]; [|now elim Hc].
      destruct (title it) as [[|a t]|]; cbn; now eexists.
Qed.

End Cards.

(** X19.  The heading of a card can be formed exactly for the items that
    have a non-empty title or a content; in particular it can be formed for
    every item the article feed returns under a non-empty search query.  A
    heading taken from the content has at most 63 characters. *)
Theorem search_results_have_a_heading (filters : Filters.t)
  (items r : list Item) (limit : Z) (it : Item) :
  ((exists h, NewsFeed.heading it = Ok h) <->
   (exists t, title it = Some t /\ t <> ""%string) \/ content it <> None) /\
  (Filters.searchQuery filters <> ""%string ->
   NewsFeed.apply filters items limit = Ok r -> In it r ->
   exists h, NewsFeed.heading it = Ok h) /\
  (forall c h, title it = None -> content it = Some c ->
     NewsFeed.heading it = Ok h ->
     (String.length h <= 63)%nat).
Proof.
  split; [apply heading_ok_iff|]. split.
  - intros Hq Hr Hin. apply heading_ok_iff.
    apply NewsFeed_apply_inv in Hr. destruct Hr as [s [Hs ->]].
    apply In_slice, sort_In in Hin.
    destruct (NewsFeed_search_filter_ok filters
                (NewsFeed.category_filter filters items)) as [s' [Hs' Hm]].
    rewrite Hs in Hs'. injection Hs' as <-.
    destruct (Hm it Hin) as [_ Hacc].
    apply truthy_true in Hq. specialize (Hacc Hq).
    set (q := toLowerCase (Filters.searchQuery filters)) in *.
    destruct (NewsFeed_matches_search_spec q it) as [b [Eb Hb]].
    rewrite Hacc in Eb. injection Eb as <-.
    destruct (proj1 Hb eq_refl) as [[t [Ht [pre [post Hsub]]]]|[c [Hc _]]].
    + left. exists t. split; [exact Ht|]. intros ->. cbn in Hsub.
      apply empty_has_no_substring in Hsub.
      apply toLowerCase_empty in Hsub.
      rewrite Hsub in Hq. discriminate Hq.
    + right. congruence.
  - intros c h Ht Hc Hh. unfold NewsFeed.heading in Hh.
    rewrite Ht, Hc in Hh. injection Hh as <-.
    rewrite string_length_append.
    pose proof (string_length_substring_0 60 c). cbn [String.length]. lia.
Qed.

Lemma search_results_have_a_heading_witness :
  exists h, NewsFeed.heading sample_quote = Ok h.
Proof.
  apply (search_results_have_a_heading (criteria "all" "deglobal")
           [sample_quote] [sample_quote] 10 sample_quote).
  - discriminate.
  - reflexivity.
  - now left.
Defined.

Lemma Qle_bool_false (x y : Q) : Qle_bool x y = false -> (y < x)%Q.
Proof.
  intros H. destruct (Qlt_le_dec y x) as [Hlt|Hle]; [exact Hlt|].
  apply Qle_bool_iff in Hle. congruence.
Qed.

(** X20.  The priority icon never falls as the score rises: the rising
    icon is shown from 75 on, the flat one from 50 on and the falling one
    below, and an item without a score shows the falling icon, as the
    lowest scores do. *)
Theorem priority_icon_is_monotone (p q : Q) :
  ((p <= q)%Q ->
   (icon_rank (NewsFeed.getPriorityIcon (Num p))
    <= icon_rank (NewsFeed.getPriorityIcon (Num q)))%nat) /\
  ((75 <= p)%Q <-> NewsFeed.getPriorityIcon (Num p) = NewsFeed.TrendingUp) /\
  ((p < 50)%Q <-> NewsFeed.getPriorityIcon (Num p) = NewsFeed.TrendingDown) /\
  NewsFeed.getPriorityIcon (ToNumber None) = NewsFeed.TrendingDown.
Proof.
  unfold NewsFeed.getPriorityIcon. cbn [ToNumber].
  destruct (Qle_bool 75 p) eqn:E75;
    [apply Qle_bool_iff in E75 | apply Qle_bool_false in E75];
    (destruct (Qle_bool 50 p) eqn:E50;
     [apply Qle_bool_iff in E50 | apply Qle_bool_false in E50]);
    (destruct (Qle_bool 75 q) eqn:F75;
     [apply Qle_bool_iff in F75 | apply Qle_bool_false in F75]);
    (destruct (Qle_bool 50 q) eqn:F50;
     [apply Qle_bool_iff in F50 | apply Qle_bool_false in F50]);
    repeat split; intros; cbn [icon_rank];
    try discriminate; try reflexivity; try lia; try lra; exfalso; lra.
Qed.

Lemma priority_icon_is_monotone_witness :
  (icon_rank (NewsFeed.getPriorityIcon (Num 65.3))
   <= icon_rank (NewsFeed.getPriorityIcon (Num 85.5)))%nat.
Proof.
  apply (priority_icon_is_monotone 65.3 85.5). lra.
Defined.


